(** * Kanjiten backend: progress, streak and settings handlers

    A shallow embedding of the request handlers of [Backend/server.js]
    that make up the learning-progress and streak-tracking engine, and the
    properties of them that the design document states; then the handlers
    and the middleware around them (accounts, the log, the custom words)
    and what the code shows of them.

    A handler is a function from the state of the store and the request to
    a response and the new state of the store.  The store (Supabase) is an
    outside service: it is modelled as one finite map per table, keyed by
    the columns the handlers name in [onConflict]. *)

From Stdlib Require Import ZArith QArith Ascii String List Bool Lia.
From stdpp Require Import base option gmap strings list fin_maps pretty sorting.

Set Warnings "-register-all".

Open Scope string_scope.
Open Scope Z_scope.

(** ** JavaScript values *)

Module Js.

(** Values that reach the handlers: what [express.json()] parses out of a
    request body, [undefined] for a property that is not there and [NaN],
    which [parseInt] can return.  A finite number is a rational; an object
    maps property names to values. *)
Inductive value : Type :=
  | VUndefined
  | VNull
  | VBool (b : bool)
  | VNum (q : Q)
  | VNaN
  | VStr (s : string)
  | VArr (items : list value)
  | VObj (props : gmap string value).

(** ToBoolean: [undefined], [null], [false], [0], [NaN] and the empty
    string are falsy, everything else (objects and arrays included) is
    truthy. *)
Definition truthy (v : value) : bool :=
  match v with
  | VUndefined | VNull | VNaN => false
  | VBool b => b
  | VNum q => negb (Qeq_bool q 0)
  | VStr s => negb (String.eqb s "")
  | VArr _ | VObj _ => true
  end.

(** [a || b] *)
Definition or_else (a b : value) : value := if truthy a then a else b.

(** [v !== null ? v : d] *)
Definition unless_null (v d : value) : value :=
  match v with VNull => d | _ => v end.

(** [o.name], for the property names the handlers read (none of them is an
    index, [length] or a property of a prototype).  Reading a property of
    [undefined] or [null] throws a TypeError: [None].  A property that an
    object does not have, and any of these names on an array or a
    primitive, reads as [undefined]. *)
Definition get (name : string) (o : value) : option value :=
  match o with
  | VUndefined | VNull => None
  | VObj props => Some (default VUndefined (props !! name))
  | _ => Some VUndefined
  end.

(** [Array.isArray(v)] *)
Definition isArray (v : value) : bool :=
  match v with VArr _ => true | _ => false end.

(** [xs.includes(v)] for an array literal of strings: SameValueZero, so
    only an equal string is found. *)
Definition includes (xs : list string) (v : value) : bool :=
  match v with
  | VStr s => existsb (String.eqb s) xs
  | _ => false
  end.

Definition char_at (n : nat) (s : string) : value :=
  match String.get n s with
  | Some c => VStr (String c EmptyString)
  | None => VUndefined
  end.

(** The array pattern [[a, b]] applied to [e]: the first two items of an
    array, the first two characters of a string (ASCII), [undefined]
    where there are fewer; a value that is not iterable throws a
    TypeError: [None]. *)
Definition destructure2 (e : value) : option (value * value) :=
  match e with
  | VArr items => Some (nth 0 items VUndefined, nth 1 items VUndefined)
  | VStr s => Some (char_at 0 s, char_at 1 s)
  | _ => None
  end.

End Js.

Import Js.

(** ** Requests, responses and the clock *)

(** [req.user], as the authentication middleware leaves it: the id of the
    account and the [username] column of its profile. *)
Record user := { id : string; username : value }.

(** What a handler sends: [res.json(payload)] with status 200, or
    [res.status(code).json({ error })]. *)
Inductive response (A : Type) : Type :=
  | Json (payload : A)
  | Fail (code : Z) (error : string).
Arguments Json {A} payload.
Arguments Fail {A} code error.

(** The world outside a request: [now] is the instant [new Date()] reads,
    in milliseconds since the epoch (one instant per request: the time the
    handler itself takes is not modelled); [select_ok] and [upsert_ok]
    tell whether the read and the write the handler asks of the store
    come back without [error]. *)
Record world := { now : Z; select_ok : bool; upsert_ok : bool }.

(** A calendar date is the number of its day since 1970-01-01: the
    [YYYY-MM-DD] strings that the code compares with [===] are equal
    exactly when the days are. *)
Definition date := Z.

Definition msPerDay : Z := 86400000.

(** [d.toISOString().split('T')[0]]: the UTC date of the instant. *)
Definition isoDate (t : Z) : date := t / msPerDay.

(** [d.setDate(d.getDate() - 1)]: the same wall-clock time one day
    earlier in the time zone of the server.  The zone is taken to have a
    fixed offset from UTC (as UTC itself has), where this is the instant
    24 hours before. *)
Definition setDate_prev (t : Z) : Z := t - msPerDay.

(** [lastDate === today], where the column holds a date or [null]. *)
Definition date_is (lastDate : option date) (d : date) : bool :=
  match lastDate with
  | Some l => l =? d
  | None => false
  end.

(** ** The store

    The tables of the store, as the handlers see them.  The store itself
    is not part of the sources; what follows is the part of its contract
    that the handlers rely on. *)

(** [user_streaks], keyed by [user_id]: an integer column, a date column
    that may be [null], and the instant of the last write. *)
Module UserStreaks.
Record row := {
  daily_streak : Z;
  last_review_date : option date;
  updated_at : Z
}.
End UserStreaks.

(** [user_kanji_progress], keyed by [user_id, kanji_id]; the columns hold
    what the handlers were given. *)
Module UserKanjiProgress.
Record row := {
  learned : value;
  in_review : value;
  srs_interval : value;
  ease_factor : value;
  consecutive_correct : value;
  total_reviews : value;
  correct_reviews : value;
  last_review : value;
  next_review : value;
  mnemonic : value;
  updated_at : value
}.
End UserKanjiProgress.

(** [user_settings], keyed by [user_id]. *)
Module UserSettings.
Record row := {
  profile_name : value;
  max_level : value;
  jlpt_level : value;
  max_interval : value;
  show_progress : value;
  show_drawing : value;
  show_study_progress : value;
  default_question_mode : value;
  dark_mode : value;
  language : value;
  updated_at : value
}.
End UserSettings.

Record store := {
  user_streaks : gmap string UserStreaks.row;
  user_kanji_progress : gmap (string * Z) UserKanjiProgress.row;
  user_settings : gmap string UserSettings.row
}.

Definition with_streaks (st : store) (t : gmap string UserStreaks.row) : store :=
  {| user_streaks := t;
     user_kanji_progress := user_kanji_progress st;
     user_settings := user_settings st |}.

Definition with_progress (st : store)
    (t : gmap (string * Z) UserKanjiProgress.row) : store :=
  {| user_streaks := user_streaks st;
     user_kanji_progress := t;
     user_settings := user_settings st |}.

Definition with_settings (st : store) (t : gmap string UserSettings.row) : store :=
  {| user_streaks := user_streaks st;
     user_kanji_progress := user_kanji_progress st;
     user_settings := t |}.

Module Db.

(** Modelled from the spec: the store collaborator's upsert-by-key (the
    Supabase service and its client are not part of the sources).  A
    property whose value is [undefined] is not sent, and the upsert writes
    the columns it is sent: such a column keeps the value of the row that
    is there, and is [null] in a row that is new. *)
Definition merge_col (new old : value) : value :=
  match new with VUndefined => old | _ => new end.

Definition merge_settings (data : UserSettings.row) (old : option UserSettings.row)
  : UserSettings.row :=
  let col (f : UserSettings.row → value) :=
    merge_col (f data) (from_option f VNull old) in
  {| UserSettings.profile_name := col UserSettings.profile_name;
     UserSettings.max_level := col UserSettings.max_level;
     UserSettings.jlpt_level := col UserSettings.jlpt_level;
     UserSettings.max_interval := col UserSettings.max_interval;
     UserSettings.show_progress := col UserSettings.show_progress;
     UserSettings.show_drawing := col UserSettings.show_drawing;
     UserSettings.show_study_progress := col UserSettings.show_study_progress;
     UserSettings.default_question_mode := col UserSettings.default_question_mode;
     UserSettings.dark_mode := col UserSettings.dark_mode;
     UserSettings.language := col UserSettings.language;
     UserSettings.updated_at := col UserSettings.updated_at |}.

Definition merge_progress (data : UserKanjiProgress.row)
    (old : option UserKanjiProgress.row) : UserKanjiProgress.row :=
  let col (f : UserKanjiProgress.row → value) :=
    merge_col (f data) (from_option f VNull old) in
  {| UserKanjiProgress.learned := col UserKanjiProgress.learned;
     UserKanjiProgress.in_review := col UserKanjiProgress.in_review;
     UserKanjiProgress.srs_interval := col UserKanjiProgress.srs_interval;
     UserKanjiProgress.ease_factor := col UserKanjiProgress.ease_factor;
     UserKanjiProgress.consecutive_correct := col UserKanjiProgress.consecutive_correct;
     UserKanjiProgress.total_reviews := col UserKanjiProgress.total_reviews;
     UserKanjiProgress.correct_reviews := col UserKanjiProgress.correct_reviews;
     UserKanjiProgress.last_review := col UserKanjiProgress.last_review;
     UserKanjiProgress.next_review := col UserKanjiProgress.next_review;
     UserKanjiProgress.mnemonic := col UserKanjiProgress.mnemonic;
     UserKanjiProgress.updated_at := col UserKanjiProgress.updated_at |}.

Section Progress.

(** How the store reads the value sent for [kanji_id] as the integer key
    of the row; [None] when it refuses the value, and the write with it. *)
Variable item_key : value → option Z.

(** One row of [upsert(..., { onConflict: 'user_id,kanji_id' })]. *)
Definition upsert_progress (user_id : string)
    (r : value * UserKanjiProgress.row)
    (t : gmap (string * Z) UserKanjiProgress.row)
  : option (gmap (string * Z) UserKanjiProgress.row) :=
  k ← item_key r.1;
  Some (<[(user_id, k) := merge_progress r.2 (t !! (user_id, k))]> t).

(** Modelled from the spec: the store collaborator's upsert of an array of
    rows (not part of the sources).  The rows are applied as independent
    upserts in the order of the array, and all of them or none. *)
Fixpoint upsert_all (user_id : string)
    (rs : list (value * UserKanjiProgress.row))
    (t : gmap (string * Z) UserKanjiProgress.row)
  : option (gmap (string * Z) UserKanjiProgress.row) :=
  match rs with
  | [] => Some t
  | r :: rs => t' ← upsert_progress user_id r t; upsert_all user_id rs t'
  end.

End Progress.

End Db.

(** ** POST /api/streak/update *)

Module Streak.

Import UserStreaks.

(** The body of the handler up to the upsert: [inl s] is the early return
    with the streak [s] unchanged, [inr n] goes on with [newStreak = n]. *)
Definition newStreak (today yesterdayStr : date) (currentStreak : option row)
  : Z + Z :=
  match currentStreak with
  | Some cs =>
      let lastDate := last_review_date cs in
      if date_is lastDate today then inl (daily_streak cs)
      else if date_is lastDate yesterdayStr then inr (daily_streak cs + 1)
      else inr 1
  | None => inr 1
  end.

(** The [error] of the select is not looked at: when the store cannot be
    read, [currentStreak] is [null] as it is when the user has no row. *)
Definition update (w : world) (st : store) (u : user) : response Z * store :=
  let today := isoDate (now w) in
  let currentStreak := if select_ok w then user_streaks st !! id u else None in
  let yesterdayStr := isoDate (setDate_prev (now w)) in
  match newStreak today yesterdayStr currentStreak with
  | inl s => (Json s, st)
  | inr n =>
      let streakData :=
        {| daily_streak := n; last_review_date := Some today;
           updated_at := now w |} in
      if upsert_ok w
      then (Json n, with_streaks st (<[id u := streakData]> (user_streaks st)))
      else (Fail 500 "Failed to update streak", st)
  end.

End Streak.

(** ** GET and PUT /api/settings *)

Module Settings.

Import UserSettings.

(** The [settings] object of the response. *)
Record settings := {
  profileName : value;
  maxLevel : value;
  jlptLevel : value;
  maxInterval : value;
  showProgress : value;
  showDrawing : value;
  showStudyProgress : value;
  defaultQuestionMode : value;
  darkMode : value;
  language : value
}.

Definition defaultSettings (u : user) : settings :=
  {| profileName := or_else (username u) (VStr "User");
     maxLevel := VNum 10;
     jlptLevel := VStr "all";
     maxInterval := VNum 180;
     showProgress := VBool true;
     showDrawing := VBool true;
     showStudyProgress := VBool true;
     defaultQuestionMode := VStr "meaning-first";
     darkMode := VBool false;
     language := VStr "en" |}.

(** [const settings = data ? { ... } : defaultSettings] *)
Definition resolve (u : user) (data : option row) : settings :=
  let d := defaultSettings u in
  match data with
  | Some data =>
      {| profileName := or_else (profile_name data) (profileName d);
         maxLevel := or_else (max_level data) (maxLevel d);
         jlptLevel := or_else (jlpt_level data) (jlptLevel d);
         maxInterval := or_else (max_interval data) (maxInterval d);
         showProgress := unless_null (show_progress data) (showProgress d);
         showDrawing := unless_null (show_drawing data) (showDrawing d);
         showStudyProgress :=
           unless_null (show_study_progress data) (showStudyProgress d);
         defaultQuestionMode :=
           or_else (default_question_mode data) (defaultQuestionMode d);
         darkMode := unless_null (dark_mode data) (darkMode d);
         language := or_else (UserSettings.language data) (language d) |}
  | None => d
  end.

(** GET /api/settings.  The select fails with an error other than "no
    rows" when the store cannot be read. *)
Definition get (w : world) (st : store) (u : user) : response settings :=
  if select_ok w
  then Json (resolve u (user_settings st !! id u))
  else Fail 500 "Failed to get settings".

(** The properties that the handler takes out of [req.body]; a body that
    is [undefined] or [null] throws. *)
Definition destructure (body : value) : option settings :=
  profileName ← Js.get "profileName" body;
  maxLevel ← Js.get "maxLevel" body;
  jlptLevel ← Js.get "jlptLevel" body;
  maxInterval ← Js.get "maxInterval" body;
  showProgress ← Js.get "showProgress" body;
  showDrawing ← Js.get "showDrawing" body;
  showStudyProgress ← Js.get "showStudyProgress" body;
  defaultQuestionMode ← Js.get "defaultQuestionMode" body;
  darkMode ← Js.get "darkMode" body;
  language ← Js.get "language" body;
  Some {| profileName := profileName; maxLevel := maxLevel;
          jlptLevel := jlptLevel; maxInterval := maxInterval;
          showProgress := showProgress; showDrawing := showDrawing;
          showStudyProgress := showStudyProgress;
          defaultQuestionMode := defaultQuestionMode;
          darkMode := darkMode; language := language |}.

Definition quote : string := String (Ascii.ascii_of_nat 34) EmptyString.

Definition invalid_language : string :=
  String.concat ""
    ["Invalid language. Must be "; quote; "en"; quote; " or "; quote; "ja"; quote].

(** What the language check of PUT /api/settings lets through: a falsy
    language, ["en"] and ["ja"]. *)
Definition language_accepted (l : value) : bool :=
  negb (truthy l) || includes ["en"; "ja"] l.

Section Put.

(** [new Date(t).toISOString()] *)
Variable toISOString : Z → string.

Definition settingsData (w : world) (b : settings) : row :=
  {| profile_name := profileName b;
     max_level := maxLevel b;
     jlpt_level := jlptLevel b;
     max_interval := maxInterval b;
     show_progress := showProgress b;
     show_drawing := showDrawing b;
     show_study_progress := showStudyProgress b;
     default_question_mode := defaultQuestionMode b;
     dark_mode := darkMode b;
     UserSettings.language := or_else (language b) (VStr "en");
     updated_at := VStr (toISOString (now w)) |}.

(** PUT /api/settings *)
Definition put (w : world) (st : store) (u : user) (body : value)
  : response unit * store :=
  match destructure body with
  | None => (Fail 500 "Failed to save settings", st)
  | Some b =>
      if truthy (language b) && negb (includes ["en"; "ja"] (language b))
      then (Fail 400 invalid_language, st)
      else
        let data := settingsData w b in
        if upsert_ok w
        then (Json (),
              with_settings st
                (<[id u := Db.merge_settings data (user_settings st !! id u)]>
                   (user_settings st)))
        else (Fail 500 "Failed to save settings", st)
  end.

End Put.

End Settings.

(** ** POST /api/progress/update and /api/progress/bulk-update *)

Module Progress.

Import UserKanjiProgress.

(** The invariant of a progress record: both counters are numbers and
    [correct_reviews] is at most [total_reviews]. *)
Definition reviews_ok (r : row) : Prop :=
  ∃ c t, correct_reviews r = VNum c ∧ total_reviews r = VNum t ∧ (c <= t)%Q.

(** The counters of the row are the values [c] and [t] of the request,
    with 0 in place of a falsy one. *)
Definition counters_from (c t : value) (r : row) : Prop :=
  correct_reviews r = or_else c (VNum 0) ∧ total_reviews r = or_else t (VNum 0).

(** Every column of the row is sent to the store. *)
Definition all_sent (r : row) : Prop :=
  learned r ≠ VUndefined ∧ in_review r ≠ VUndefined
  ∧ srs_interval r ≠ VUndefined ∧ ease_factor r ≠ VUndefined
  ∧ consecutive_correct r ≠ VUndefined ∧ total_reviews r ≠ VUndefined
  ∧ correct_reviews r ≠ VUndefined ∧ last_review r ≠ VUndefined
  ∧ next_review r ≠ VUndefined ∧ mnemonic r ≠ VUndefined
  ∧ updated_at r ≠ VUndefined.

Section Handlers.

(** The built-in [parseInt] (of one argument) and
    [new Date(t).toISOString()], and the store's reading of [kanji_id]. *)
Variable parseInt : value → value.
Variable toISOString : Z → string.
Variable item_key : value → option Z.

(** The [progressData] of POST /api/progress/update with its [kanji_id];
    [updated_at] is not among its properties. *)
Definition progressData (w : world) (body : value) : option (value * row) :=
  kanji_id ← Js.get "kanji_id" body;
  learned ← Js.get "learned" body;
  in_review ← Js.get "in_review" body;
  srs_interval ← Js.get "srs_interval" body;
  ease_factor ← Js.get "ease_factor" body;
  consecutive_correct ← Js.get "consecutive_correct" body;
  total_reviews ← Js.get "total_reviews" body;
  correct_reviews ← Js.get "correct_reviews" body;
  next_review ← Js.get "next_review" body;
  mnemonic ← Js.get "mnemonic" body;
  Some (kanji_id,
        {| learned := or_else learned (VBool false);
           in_review := or_else in_review (VBool false);
           srs_interval := or_else srs_interval (VNum 1);
           ease_factor := or_else ease_factor (VNum (5 # 2));
           consecutive_correct := or_else consecutive_correct (VNum 0);
           total_reviews := or_else total_reviews (VNum 0);
           correct_reviews := or_else correct_reviews (VNum 0);
           last_review := VStr (toISOString (now w));
           next_review := or_else next_review VNull;
           mnemonic := or_else mnemonic VNull;
           updated_at := VUndefined |}).

(** POST /api/progress/update *)
Definition update (w : world) (st : store) (u : user) (body : value)
  : response unit * store :=
  match progressData w body with
  | None => (Fail 500 "Failed to update progress", st)
  | Some r =>
      match
        (if upsert_ok w
         then Db.upsert_progress item_key (id u) r (user_kanji_progress st)
         else None)
      with
      | Some t => (Json (), with_progress st t)
      | None => (Fail 500 "Failed to update progress", st)
      end
  end.

(** The function mapped over [kanjiProgressData]:
    [([kanjiId, progressData]) => ({ ... })]. *)
Definition progressRecord (w : world) (entry : value) : option (value * row) :=
  '(kanjiId, progressData) ← destructure2 entry;
  let kanji_id := parseInt kanjiId in
  learned ← Js.get "learned" progressData;
  inReview ← Js.get "inReview" progressData;
  interval ← Js.get "interval" progressData;
  ease ← Js.get "ease" progressData;
  consecutiveCorrect ← Js.get "consecutiveCorrect" progressData;
  totalReviews ← Js.get "totalReviews" progressData;
  correctReviews ← Js.get "correctReviews" progressData;
  lastReview ← Js.get "lastReview" progressData;
  nextReview ← Js.get "nextReview" progressData;
  mnemonic ← Js.get "mnemonic" progressData;
  Some (kanji_id,
        {| learned := or_else learned (VBool false);
           in_review := or_else inReview (VBool false);
           srs_interval := or_else interval (VNum 1);
           ease_factor := or_else ease (VNum (5 # 2));
           consecutive_correct := or_else consecutiveCorrect (VNum 0);
           total_reviews := or_else totalReviews (VNum 0);
           correct_reviews := or_else correctReviews (VNum 0);
           last_review := or_else lastReview VNull;
           next_review := or_else nextReview VNull;
           mnemonic := or_else mnemonic VNull;
           updated_at := VStr (toISOString (now w)) |}).

(** POST /api/progress/bulk-update; the payload of the response is its
    [updated] count. *)
Definition bulk_update (w : world) (st : store) (u : user) (body : value)
  : response nat * store :=
  match Js.get "kanjiProgressData" body with
  | None => (Fail 500 "Failed to update progress", st)
  | Some kanjiProgressData =>
      if negb (truthy kanjiProgressData) || negb (isArray kanjiProgressData)
      then (Fail 400 "Invalid kanji progress data", st)
      else
        let items :=
          match kanjiProgressData with VArr items => items | _ => [] end in
        match mapM (progressRecord w) items with
        | None => (Fail 500 "Failed to update progress", st)
        | Some progressRecords =>
            match
              (if upsert_ok w
               then Db.upsert_all item_key (id u) progressRecords
                      (user_kanji_progress st)
               else None)
            with
            | Some t => (Json (length items), with_progress st t)
            | None => (Fail 500 "Failed to update progress", st)
            end
        end
  end.

End Handlers.

End Progress.

(** ** GET /api/streak and GET /api/progress *)

Module Queries.

(** The [streak] object of the response of GET /api/streak. *)
Record streak := { dailyStreak : Z; lastReviewDate : option date }.

(** [n || 0] on a number. *)
Definition or_zero (n : Z) : Z := if n =? 0 then 0 else n.

(** GET /api/streak.  The select fails with an error other than "no
    rows" when the store cannot be read. *)
Definition get_streak (w : world) (st : store) (u : user) : response streak :=
  if select_ok w
  then Json (match user_streaks st !! id u with
             | Some data =>
                 {| dailyStreak := or_zero (UserStreaks.daily_streak data);
                    lastReviewDate := UserStreaks.last_review_date data |}
             | None => {| dailyStreak := 0; lastReviewDate := None |}
             end)
  else Fail 500 "Failed to get streak".

(** GET /api/progress: the rows of the table with the [user_id] of the
    caller, each under its key. *)
Definition get_progress (w : world) (st : store) (u : user)
  : response (gmap (string * Z) UserKanjiProgress.row) :=
  if select_ok w
  then Json (filter (λ kv, kv.1.1 = id u) (user_kanji_progress st))
  else Fail 500 "Failed to get progress".

End Queries.

(** ** GET and PUT /api/user/language *)

Module Language.

(** GET /api/user/language: [data?.language || 'en']. *)
Definition get (w : world) (st : store) (u : user) : response value :=
  if select_ok w
  then Json (or_else (from_option UserSettings.language VUndefined
                        (user_settings st !! id u))
               (VStr "en"))
  else Fail 500 "Failed to get language preference".

Section Put.

Variable toISOString : Z → string.

(** The object that PUT /api/user/language upserts: [user_id],
    [language] and [updated_at], and no other column. *)
Definition languageData (w : world) (language : value) : UserSettings.row :=
  {| UserSettings.profile_name := VUndefined;
     UserSettings.max_level := VUndefined;
     UserSettings.jlpt_level := VUndefined;
     UserSettings.max_interval := VUndefined;
     UserSettings.show_progress := VUndefined;
     UserSettings.show_drawing := VUndefined;
     UserSettings.show_study_progress := VUndefined;
     UserSettings.default_question_mode := VUndefined;
     UserSettings.dark_mode := VUndefined;
     UserSettings.language := language;
     UserSettings.updated_at := VStr (toISOString (now w)) |}.

(** PUT /api/user/language; the payload of the response is its
    [language]. *)
Definition put (w : world) (st : store) (u : user) (body : value)
  : response value * store :=
  match Js.get "language" body with
  | None => (Fail 500 "Failed to update language preference", st)
  | Some language =>
      if negb (truthy language) || negb (includes ["en"; "ja"] language)
      then (Fail 400 Settings.invalid_language, st)
      else if upsert_ok w
      then (Json language,
            with_settings st
              (<[id u := Db.merge_settings (languageData w language)
                           (user_settings st !! id u)]> (user_settings st)))
      else (Fail 500 "Failed to update language preference", st)
  end.

End Put.

End Language.

(** ** Calls in sequence *)

(** The answers of POST /api/streak/update called once in each of the
    worlds, in order, and the store after the last call. *)
Fixpoint streak_updates (ws : list world) (st : store) (u : user)
  : list (response Z) * store :=
  match ws with
  | [] => ([], st)
  | w :: ws =>
      let '(r, st1) := Streak.update w st u in
      let '(rs, st2) := streak_updates ws st1 u in
      (r :: rs, st2)
  end.

(** The rows of every user other than [u] are in [st'] what they are in
    [st], in the three tables. *)
Definition others_untouched (u : user) (st st' : store) : Prop :=
  ∀ uid, uid ≠ id u →
    user_streaks st' !! uid = user_streaks st !! uid
    ∧ user_settings st' !! uid = user_settings st !! uid
    ∧ ∀ k, user_kanji_progress st' !! (uid, k)
           = user_kanji_progress st !! (uid, k).

(** ** The fields of the requests and their columns *)

Module Fields.

(** The fields of the settings that GET /api/settings resolves with [||]
    (all of them but [language]), and the toggles, which it compares with
    [null]; each with its column. *)
Definition defaulted
  : list ((Settings.settings → value) * (UserSettings.row → value)) :=
  [ (Settings.profileName, UserSettings.profile_name);
    (Settings.maxLevel, UserSettings.max_level);
    (Settings.jlptLevel, UserSettings.jlpt_level);
    (Settings.maxInterval, UserSettings.max_interval);
    (Settings.defaultQuestionMode, UserSettings.default_question_mode) ].

Definition toggles
  : list ((Settings.settings → value) * (UserSettings.row → value)) :=
  [ (Settings.showProgress, UserSettings.show_progress);
    (Settings.showDrawing, UserSettings.show_drawing);
    (Settings.showStudyProgress, UserSettings.show_study_progress);
    (Settings.darkMode, UserSettings.dark_mode) ].

(** The properties that the bulk update reads from the progress data of
    an entry, each with its column and the value written for a falsy
    one. *)
Definition bulk
  : list (string * (UserKanjiProgress.row → value) * value) :=
  [ ("learned", UserKanjiProgress.learned, VBool false);
    ("inReview", UserKanjiProgress.in_review, VBool false);
    ("interval", UserKanjiProgress.srs_interval, VNum 1);
    ("ease", UserKanjiProgress.ease_factor, VNum (5 # 2));
    ("consecutiveCorrect", UserKanjiProgress.consecutive_correct, VNum 0);
    ("totalReviews", UserKanjiProgress.total_reviews, VNum 0);
    ("correctReviews", UserKanjiProgress.correct_reviews, VNum 0);
    ("lastReview", UserKanjiProgress.last_review, VNull);
    ("nextReview", UserKanjiProgress.next_review, VNull);
    ("mnemonic", UserKanjiProgress.mnemonic, VNull) ].

(** The same for the body of POST /api/progress/update. *)
Definition single
  : list (string * (UserKanjiProgress.row → value) * value) :=
  [ ("learned", UserKanjiProgress.learned, VBool false);
    ("in_review", UserKanjiProgress.in_review, VBool false);
    ("srs_interval", UserKanjiProgress.srs_interval, VNum 1);
    ("ease_factor", UserKanjiProgress.ease_factor, VNum (5 # 2));
    ("consecutive_correct", UserKanjiProgress.consecutive_correct, VNum 0);
    ("total_reviews", UserKanjiProgress.total_reviews, VNum 0);
    ("correct_reviews", UserKanjiProgress.correct_reviews, VNum 0);
    ("next_review", UserKanjiProgress.next_review, VNull);
    ("mnemonic", UserKanjiProgress.mnemonic, VNull) ].

End Fields.

(** ** Accounts: POST /api/auth/register, GET /api/auth/verify and the
    authentication middleware

    A string stands for the JavaScript string whose code units are its
    characters, each of them below 256. *)

Module Auth.

Definition code (c : ascii) : Z := Z.of_nat (nat_of_ascii c).

(** The classes of [passwordRegex]: [[a-z]], [[A-Z]], [\d], the class of
    the symbols (the codes of [! @ # $ % ^ & * ( ) , . ?], the double
    quote and [: { } | < >], in the order of the source) and [.], which
    matches every character but the line terminators. *)
Definition lower (c : ascii) : bool := (97 <=? code c) && (code c <=? 122).
Definition upper (c : ascii) : bool := (65 <=? code c) && (code c <=? 90).
Definition digit (c : ascii) : bool := (48 <=? code c) && (code c <=? 57).
Definition symbol (c : ascii) : bool :=
  existsb (Z.eqb (code c))
    [33; 64; 35; 36; 37; 94; 38; 42; 40; 41; 44; 46; 63; 34; 58; 123; 125;
     124; 60; 62].
Definition dot (c : ascii) : bool :=
  negb (code c =? 10) && negb (code c =? 13).

(** [(?=.*[class])] at the start of [s]: a character of the class is
    found after characters that [.] matches. *)
Fixpoint ahead (class : ascii → bool) (s : string) : bool :=
  match s with
  | EmptyString => false
  | String c s' => class c || (dot c && ahead class s')
  end.

(** [^.{lo,hi}$]: [s] is made of [lo] to [hi] characters that [.]
    matches. *)
Fixpoint dots (s : string) : bool :=
  match s with
  | EmptyString => true
  | String c s' => dot c && dots s'
  end.

Definition between (lo hi : nat) (s : string) : bool :=
  dots s && (lo <=? String.length s)%nat && (String.length s <=? hi)%nat.

(** [passwordRegex.test(s)] for a string [s], where [passwordRegex] is
    [/^(?=.*[a-z])(?=.*[A-Z])(?=.*\d)(?=.*[...]).{8,30}$/]. *)
Definition passwordRegex_test (s : string) : bool :=
  ahead lower s && ahead upper s && ahead digit s && ahead symbol s
  && between 8 30 s.

(** [v.length]: the length of a string or an array, the property of an
    object, [undefined] on a number or a boolean, and a TypeError on
    [undefined] and [null]. *)
Definition length_of (v : value) : option value :=
  match v with
  | VUndefined | VNull => None
  | VStr s => Some (VNum (inject_Z (Z.of_nat (String.length s))))
  | VArr items => Some (VNum (inject_Z (Z.of_nat (length items))))
  | VObj props => Some (default VUndefined (props !! "length"))
  | _ => Some VUndefined
  end.

(** What the identity service answers to [signUp]: the message of its
    error, or the user it made (if any) and the session (or [null]). *)
Record signUp := {
  signUpError : option string;
  signUp_user : option string;
  session : value
}.

(** The [user] object of the answers. *)
Record account := {
  account_id : string;
  account_username : value;
  account_email : value;
  isAnonymous : value
}.

Inductive registered : Type :=
  | NeedsConfirmation (user : account)
  | Registered (user : account) (session : value).

(** The [user] of an answer. *)
Definition account_of (r : registered) : account :=
  match r with
  | NeedsConfirmation a => a
  | Registered a _ => a
  end.

Section Register.

(** ToNumber of a string, an array or an object, and ToString of a value
    that is not a string: built-in conversions. *)
Variable toNumber : value → value.
Variable toString : value → string.

(** ToNumber; [None] is [NaN]. *)
Definition number_of (v : value) : option Q :=
  match v with
  | VNum q => Some q
  | VNull => Some 0%Q
  | VBool b => Some (if b then 1%Q else 0%Q)
  | VUndefined | VNaN => None
  | _ => match toNumber v with VNum q => Some q | _ => None end
  end.

(** [v < n] and [v > n] for a number [n]. *)
Definition less (v : value) (n : Q) : bool :=
  match number_of v with
  | Some q => negb (Qle_bool n q)
  | None => false
  end.
Definition greater (v : value) (n : Q) : bool :=
  match number_of v with
  | Some q => negb (Qle_bool q n)
  | None => false
  end.

(** [passwordRegex.test(password)] *)
Definition test (password : value) : bool :=
  passwordRegex_test
    (match password with VStr s => s | _ => toString password end).

(** POST /api/auth/register.  [existingProfile] and [checkError] are what
    the select of the profile with the username gives, [su] what the
    identity service answers to [signUp]; neither is asked for when the
    request is answered before. *)
Definition register (existingProfile checkError : value) (su : signUp)
    (body : value) : response registered :=
  match
    username ← Js.get "username" body;
    password ← Js.get "password" body;
    email ← Js.get "email" body;
    Some (username, password, email)
  with
  | None => Fail 500 "Registration failed. Please try again."
  | Some (username, password, email) =>
      if negb (truthy username) || negb (truthy password) || negb (truthy email)
      then Fail 400 "All fields are required"
      else
        match length_of username with
        | None => Fail 500 "Registration failed. Please try again."
        | Some len =>
            if less len 3 || greater len 50
            then Fail 400 "Username must be 3-50 characters"
            else if negb (test password)
            then Fail 400 "Password must be 8-30 characters with uppercase, lowercase, digit, and symbol"
            else if truthy existingProfile && negb (truthy checkError)
            then Fail 400 "Username already exists"
            else
              match signUpError su with
              | Some message => Fail 400 message
              | None =>
                  match signUp_user su with
                  | None => Fail 500 "User creation failed"
                  | Some uid =>
                      let user :=
                        {| account_id := uid; account_username := username;
                           account_email := email;
                           isAnonymous := VBool false |} in
                      if negb (truthy (session su))
                      then Json (NeedsConfirmation user)
                      else Json (Registered user (session su))
                  end
              end
        end
  end.

End Register.

(** GET /api/auth/verify for [req.user] with its [email]:
    [user.username?.startsWith('guest_') || false] throws for a username
    that is neither a string nor [undefined] nor [null]. *)
Definition verify (u : user) (email : value) : response account :=
  match username u with
  | VUndefined | VNull =>
      Json {| account_id := id u; account_username := username u;
              account_email := email; isAnonymous := VBool false |}
  | VStr s =>
      Json {| account_id := id u; account_username := username u;
              account_email := email;
              isAnonymous := VBool (String.prefix "guest_" s) |}
  | _ => Fail 500 "Token verification failed"
  end.

(** [s.replace(pattern, '')] for a string pattern that is not empty: [s]
    without the first occurrence of the pattern. *)
Fixpoint remove_first (pattern s : string) : string :=
  if String.prefix pattern s
  then String.substring (String.length pattern)
         (String.length s - String.length pattern) s
  else match s with
       | EmptyString => EmptyString
       | String c s' => String c (remove_first pattern s')
       end.

(** What the middleware does with a request: it answers, or it calls
    [next()] with [req.user] and [req.token] set. *)
Inductive passed : Type :=
  | Answered (r : response unit)
  | Next (req_user : gmap string value) (req_token : string).

Section Middleware.

(** The identity service: the id and the email of the user of a token,
    or [None] for an error or no user.  The profile of an id, or [None]
    when the select gives an error (no row is one). *)
Variable getUser : string → option (string * value).
Variable getProfile : string → option (gmap string value).

(** The middleware from the check of the token on. *)
Definition withToken (token : string) : passed :=
  match getUser token with
  | None => Answered (Fail 401 "Invalid or expired session")
  | Some (uid, email) =>
      match getProfile uid with
      | None => Answered (Fail 500 "Failed to get user profile")
      | Some profile =>
          Next (profile ∪ {[ "id" := VStr uid ]} ∪ {[ "email" := email ]}) token
      end
  end.

(** [authenticateUser], given the [authorization] header. *)
Definition authenticateUser (authHeader : option string) : passed :=
  let token := remove_first "Bearer " <$> authHeader in
  match token with
  | None => Answered (Fail 401 "Access token required")
  | Some token =>
      if String.eqb token ""
      then Answered (Fail 401 "Access token required")
      else withToken token
  end.

End Middleware.

End Auth.

(** ** The log of the requests *)

Module Logging.

(** What [log] writes to the console: the line with the time, the level
    and the message, and a line with the data. *)
Inductive line : Type :=
  | Message (timestamp : string) (level message : string)
  | Data (data : value).

Section Log.

Variable toISOString : Z → string.

(** [log(level, message, data)]: the data is written when it is
    truthy. *)
Definition log (w : world) (level message : string) (data : value) : list line :=
  Message (toISOString (now w)) level message
  :: (if truthy data then [Data data] else []).

(** The own enumerable properties of a value, as [Object.keys] and the
    spread [{ ...v }] see them: those of an object, the items of an array
    and the characters of a string under their indices, none for a number
    or a boolean. *)
Definition indexed (vs : list value) : gmap string value :=
  list_to_map (imap (λ i v, (pretty i, v)) vs).

Definition own_properties (v : value) : gmap string value :=
  match v with
  | VObj props => props
  | VArr items => indexed items
  | VStr s => indexed ((λ c, VStr (String c EmptyString)) <$> list_ascii_of_string s)
  | _ => ∅
  end.

(** The copy of the body that is logged: [{ ...req.body }] with its
    [password], when truthy, replaced. *)
Definition sanitizedBody (body : value) : gmap string value :=
  let copy := own_properties body in
  if truthy (default VUndefined (copy !! "password"))
  then <["password" := VStr "[REDACTED]"]> copy
  else copy.

(** The middleware that logs a request, given its method, its url, its
    [content-type] header and its body. *)
Definition logRequest (w : world) (method url : string)
    (contentType : option string) (body : value) : list line :=
  log w "INFO" (String.concat " " [method; url]) VNull
  ++ match contentType with
     | Some ct =>
         if String.eqb ct "" then []
         else log w "DEBUG" "Content-Type:" (VStr ct)
     | None => []
     end
  ++ (if truthy body && negb (size (own_properties body) =? 0)%nat
      then log w "DEBUG" "Request body:" (VObj (sanitizedBody body))
      else []).

End Log.

End Logging.

(** ** The custom words: GET, POST and DELETE /api/custom-words *)

(** [user_custom_words].  The store gives a row its [id] and, by the
    default of the column, the time of the insert as [created_at]. *)
Module UserCustomWords.
Record row := {
  id : Z;
  user_id : string;
  kanji_id : Z;
  word : value;
  reading : value;
  meaning : value;
  word_type : value;
  jlpt_level : value;
  created_at : Z
}.
End UserCustomWords.

Module CustomWords.

(** [.eq('user_id', uid).eq('kanji_id', k)] *)
Definition of_kanji (uid : string) (k : Z) (r : UserCustomWords.row) : bool :=
  String.eqb (UserCustomWords.user_id r) uid && (UserCustomWords.kanji_id r =? k).

(** [.eq('id', i).eq('user_id', uid)] *)
Definition is_word (i : Z) (uid : string) (r : UserCustomWords.row) : bool :=
  (UserCustomWords.id r =? i) && String.eqb (UserCustomWords.user_id r) uid.

(** [.order('created_at', { ascending: true })] *)
Definition older (a b : UserCustomWords.row) : Prop :=
  UserCustomWords.created_at a ≤ UserCustomWords.created_at b.

Global Instance older_dec : RelDecision older.
Proof. intros a b. unfold older. apply _. Defined.

(** A property that is [undefined] is not sent, and its column is
    [null]. *)
Definition column (v : value) : value :=
  match v with VUndefined => VNull | _ => v end.

Section Handlers.

(** The built-in [parseInt]; how the store reads a value as the id of a
    kanji and the segment of a path as the id of a word ([None] when it
    refuses it, with an error). *)
Variable parseInt : value → value.
Variable item_key : value → option Z.
Variable word_key : string → option Z.

(** GET /api/custom-words/:kanjiId *)
Definition get (w : world) (t : list UserCustomWords.row) (u : user) (kanjiId : string)
  : response (list UserCustomWords.row) :=
  match (if select_ok w then item_key (parseInt (VStr kanjiId)) else None) with
  | Some k =>
      Json (merge_sort older
              (List.filter (of_kanji (id u) k) t))
  | None => Fail 500 "Failed to get custom words"
  end.

(** POST /api/custom-words; [new_id] is the id that the store gives to
    the row. *)
Definition add (new_id : Z) (w : world) (t : list UserCustomWords.row) (u : user) (body : value)
  : response UserCustomWords.row * list UserCustomWords.row :=
  match
    kanjiId ← Js.get "kanjiId" body;
    word ← Js.get "word" body;
    reading ← Js.get "reading" body;
    meaning ← Js.get "meaning" body;
    wordType ← Js.get "wordType" body;
    jlptLevel ← Js.get "jlptLevel" body;
    Some (kanjiId, word, reading, meaning, wordType, jlptLevel)
  with
  | None => (Fail 500 "Failed to add custom word", t)
  | Some (kanjiId, word, reading, meaning, wordType, jlptLevel) =>
      match (if select_ok w then item_key kanjiId else None) with
      | None => (Fail 500 "Failed to check word count", t)
      | Some counted =>
          let count := length (List.filter (of_kanji (id u) counted) t) in
          if (3 <=? count)%nat
          then (Fail 400 "Maximum 3 custom words per kanji", t)
          else
            match (if upsert_ok w then item_key (parseInt kanjiId) else None) with
            | None => (Fail 500 "Failed to add custom word", t)
            | Some k =>
                let data :=
                  {| UserCustomWords.id := new_id;
                     UserCustomWords.user_id := id u;
                     UserCustomWords.kanji_id := k;
                     UserCustomWords.word := column word;
                     UserCustomWords.reading := column reading;
                     UserCustomWords.meaning := column meaning;
                     UserCustomWords.word_type := column wordType;
                     UserCustomWords.jlpt_level := column jlptLevel;
                     UserCustomWords.created_at := now w |} in
                (Json data, (t ++ [data])%list)
            end
      end
  end.

(** DELETE /api/custom-words/:wordId *)
Definition delete (w : world) (t : list UserCustomWords.row) (u : user) (wordId : string)
  : response unit * list UserCustomWords.row :=
  match (if upsert_ok w then word_key wordId else None) with
  | Some i => (Json (), List.filter (λ r, negb (is_word i (id u) r)) t)
  | None => (Fail 500 "Failed to delete custom word", t)
  end.

End Handlers.

End CustomWords.

(** ** Sample requests

    Stand-ins for the built-ins and a store, to run the handlers on
    concrete requests. *)

Module Sample.

(** The store's reading of [kanji_id]: an integral number is the key, any
    other value is refused. *)
Definition item_key (v : value) : option Z :=
  match v with
  | VNum q =>
      if Z.eqb (Qnum q mod Z.pos (Qden q)) 0
      then Some (Qnum q / Z.pos (Qden q))
      else None
  | _ => None
  end.

Definition digit (c : Ascii.ascii) : option Z :=
  let n := Z.of_nat (Ascii.nat_of_ascii c) in
  if (48 <=? n) && (n <=? 57) then Some (n - 48) else None.

Fixpoint digits (acc : option Z) (s : string) : option Z :=
  match s with
  | EmptyString => acc
  | String c s' =>
      match digit c with
      | Some d => digits (Some (10 * from_option (λ a, a) 0 acc + d)) s'
      | None => acc
      end
  end.

(** [parseInt] on the item ids of the sample requests: a string of an
    optional sign and decimal digits, read up to the first character that
    is not a digit, and a number, truncated ([parseInt] of other arguments
    is not needed here). *)
Definition parseInt (v : value) : value :=
  match v with
  | VNum q => VNum (inject_Z (Z.quot (Qnum q) (Z.pos (Qden q))))
  | VStr (String "-"%char s) =>
      match digits None s with
      | Some n => VNum (inject_Z (- n))
      | None => VNaN
      end
  | VStr (String "+"%char s) =>
      match digits None s with
      | Some n => VNum (inject_Z n)
      | None => VNaN
      end
  | VStr s =>
      match digits None s with
      | Some n => VNum (inject_Z n)
      | None => VNaN
      end
  | _ => VNaN
  end.

(** 2024-01-06T12:00:00.000Z, on day 19728 since the epoch. *)
Definition noon : Z := 1704542400000.

(** [toISOString] at the instant of the sample requests. *)
Definition toISOString (t : Z) : string := "2024-01-06T12:00:00.000Z".

Definition w : world := {| now := noon; select_ok := true; upsert_ok := true |}.

Definition u : user := {| id := "u1"; username := VStr "peyton" |}.

Definition empty : store :=
  {| user_streaks := ∅; user_kanji_progress := ∅; user_settings := ∅ |}.

Definition streak_row (s : Z) (d : date) : UserStreaks.row :=
  {| UserStreaks.daily_streak := s;
     UserStreaks.last_review_date := Some d;
     UserStreaks.updated_at := 0 |}.

Definition streaks (s : Z) (d : date) : store :=
  with_streaks empty {[ "u1" := streak_row s d ]}.

Definition null_settings : UserSettings.row :=
  {| UserSettings.profile_name := VNull;
     UserSettings.max_level := VNull;
     UserSettings.jlpt_level := VNull;
     UserSettings.max_interval := VNull;
     UserSettings.show_progress := VNull;
     UserSettings.show_drawing := VNull;
     UserSettings.show_study_progress := VNull;
     UserSettings.default_question_mode := VNull;
     UserSettings.dark_mode := VNull;
     UserSettings.language := VNull;
     UserSettings.updated_at := VNull |}.

(** The settings of a user who chose Japanese and level 20. *)
Definition settings_ja : UserSettings.row :=
  {| UserSettings.profile_name := VStr "Peyton";
     UserSettings.max_level := VNum 20;
     UserSettings.jlpt_level := VNull;
     UserSettings.max_interval := VNull;
     UserSettings.show_progress := VBool false;
     UserSettings.show_drawing := VNull;
     UserSettings.show_study_progress := VNull;
     UserSettings.default_question_mode := VNull;
     UserSettings.dark_mode := VNull;
     UserSettings.language := VStr "ja";
     UserSettings.updated_at := VStr "2024-01-01T08:00:00.000Z" |}.

(** Settings with a level of 0 and an empty profile name. *)
Definition settings_falsy : UserSettings.row :=
  {| UserSettings.profile_name := VStr "";
     UserSettings.max_level := VNum 0;
     UserSettings.jlpt_level := VNull;
     UserSettings.max_interval := VNull;
     UserSettings.show_progress := VBool false;
     UserSettings.show_drawing := VNull;
     UserSettings.show_study_progress := VNull;
     UserSettings.default_question_mode := VNull;
     UserSettings.dark_mode := VNull;
     UserSettings.language := VNull;
     UserSettings.updated_at := VNull |}.

Definition with_row (r : UserSettings.row) : store :=
  with_settings empty {[ "u1" := r ]}.

(** [{ maxLevel: 5 }], [{ language: "fr" }] and [{ language: "" }] *)
Definition body_level : value := VObj {[ "maxLevel" := VNum 5 ]}.
Definition body_fr : value := VObj {[ "language" := VStr "fr" ]}.
Definition body_empty_language : value := VObj {[ "language" := VStr "" ]}.

(** [{ kanji_id: 1, total_reviews: 3, correct_reviews: 5 }] *)
Definition body_counts : value :=
  VObj (list_to_map
          [("kanji_id", VNum 1); ("total_reviews", VNum 3);
           ("correct_reviews", VNum 5)]).

(** [{ kanji_id: 1, total_reviews: 3, correct_reviews: 2 }] *)
Definition body_counts_ok : value :=
  VObj (list_to_map
          [("kanji_id", VNum 1); ("total_reviews", VNum 3);
           ("correct_reviews", VNum 2)]).

(** [{ kanjiProgressData: [["7", { totalReviews: 1 }],
                           ["8", { learned: true }],
                           ["7", { learned: true, totalReviews: 2 }]] }] *)
Definition batch : list value :=
  [ VArr [VStr "7"; VObj {[ "totalReviews" := VNum 1 ]}];
    VArr [VStr "8"; VObj {[ "learned" := VBool true ]}];
    VArr [VStr "7";
          VObj (list_to_map [("learned", VBool true); ("totalReviews", VNum 2)])] ].

Definition body_batch : value := VObj {[ "kanjiProgressData" := VArr batch ]}.

(** [{}] and [{ kanjiProgressData: { } }] *)
Definition body_no_batch : value := VObj ∅.
Definition body_batch_object : value :=
  VObj {[ "kanjiProgressData" := VObj ∅ ]}.

(** The world at noon, [n] days after the sample day. *)
Definition day (n : Z) : world :=
  {| now := noon + n * msPerDay; select_ok := true; upsert_ok := true |}.

Definition other : user := {| id := "u2"; username := VNull |}.

(** Stand-ins for ToNumber and ToString, which the sample requests do
    not reach: their usernames and passwords are strings or numbers. *)
Definition toNumber (v : value) : value := VNaN.
Definition toString (v : value) : string := "".

(** [{ username: "guest_bob", password: "Abcdef1!", email: "bob@example.org" }]
    and the same with the username 12345. *)
Definition body_register : value :=
  VObj (list_to_map
          [("username", VStr "guest_bob"); ("password", VStr "Abcdef1!");
           ("email", VStr "bob@example.org")]).
Definition body_register_number : value :=
  VObj (list_to_map
          [("username", VNum 12345); ("password", VStr "Abcdef1!");
           ("email", VStr "bob@example.org")]).

(** The identity service made the user and opened a session. *)
Definition signed_up : Auth.signUp :=
  {| Auth.signUpError := None; Auth.signUp_user := Some "u3";
     Auth.session := VObj {[ "access_token" := VStr "t0k3n" ]} |}.

(** The store reads a decimal numeral as the id of a word. *)
Definition word_key (s : string) : option Z := digits None s.

(** Three words of the user for the kanji 7, and one of another user. *)
Definition a_word (i : Z) (uid : string) (k : Z) (t : Z) : UserCustomWords.row :=
  {| UserCustomWords.id := i; UserCustomWords.user_id := uid;
     UserCustomWords.kanji_id := k; UserCustomWords.word := VStr "w";
     UserCustomWords.reading := VNull; UserCustomWords.meaning := VNull;
     UserCustomWords.word_type := VNull; UserCustomWords.jlpt_level := VNull;
     UserCustomWords.created_at := t |}.

Definition words : list UserCustomWords.row :=
  [a_word 1 "u1" 7 30; a_word 2 "u2" 7 20; a_word 3 "u1" 7 10].

(** [{ kanjiId: 7, word: "w" }] *)
Definition body_word : value :=
  VObj (list_to_map [("kanjiId", VNum 7); ("word", VStr "w")]).

(** An identity service that knows the token ["t0k3n"], and the profile
    of its user. *)
Definition getUser (token : string) : option (string * value) :=
  if String.eqb token "t0k3n" then Some ("u3", VStr "bob@example.org") else None.
Definition getProfile (uid : string) : option (gmap string value) :=
  if String.eqb uid "u3"
  then Some (list_to_map [("id", VStr "u3"); ("username", VStr "guest_bob")])
  else None.

(** [{ kanjiProgressData: [["7", { totalReviews: 1 }], ["8"]] }]: the
    second entry has no progress data. *)
Definition body_batch_malformed : value :=
  VObj {[ "kanjiProgressData" :=
            VArr [ VArr [VStr "7"; VObj {[ "totalReviews" := VNum 1 ]}];
                   VArr [VStr "8"] ] ]}.

(** [{ kanjiProgressData: [["7", { interval: 0, learned: true }]] }] *)
Definition body_batch_zero : value :=
  VObj {[ "kanjiProgressData" :=
            VArr [ VArr [VStr "7";
                         VObj (list_to_map
                                 [("interval", VNum 0); ("learned", VBool true)])] ] ]}.

(** [{ language: "ja" }] and [{ maxLevel: 0, showProgress: false,
    jlptLevel: "N3" }] *)
Definition body_ja : value := VObj {[ "language" := VStr "ja" ]}.
Definition body_mixed : value :=
  VObj (list_to_map
          [("maxLevel", VNum 0); ("showProgress", VBool false);
           ("jlptLevel", VStr "N3")]).

End Sample.

(** * Properties *)

(** ** Values *)

Lemma truthy_defined v : truthy v = true → v ≠ VUndefined.
Proof. by destruct v. Qed.

Lemma or_else_defined a b : b ≠ VUndefined → or_else a b ≠ VUndefined.
Proof.
  intros Hb. unfold or_else. destruct (truthy a) eqn:Ha; [|done].
  by apply truthy_defined.
Qed.

Lemma or_else_truthy a b : truthy a = true → or_else a b = a.
Proof. unfold or_else. by intros ->. Qed.

Lemma or_else_falsy a b : truthy a = false → or_else a b = b.
Proof. unfold or_else. by intros ->. Qed.

Lemma merge_col_defined new old : new ≠ VUndefined → Db.merge_col new old = new.
Proof. by destruct new. Qed.

Lemma merge_col_undefined old : Db.merge_col VUndefined old = old.
Proof. done. Qed.

(** ** The streak *)

Lemma isoDate_setDate_prev t : isoDate (setDate_prev t) = isoDate t - 1.
Proof.
  unfold isoDate, setDate_prev, msPerDay.
  replace (t - 86400000) with (t + (-1) * 86400000) by lia.
  rewrite Z.div_add by lia. lia.
Qed.

Lemma date_is_Some d d' : date_is (Some d) d' = true ↔ d = d'.
Proof. simpl. apply Z.eqb_eq. Qed.

Lemma date_is_ne d d' : d ≠ d' → date_is (Some d) d' = false.
Proof. intros. simpl. by apply Z.eqb_neq. Qed.

(** The three outcomes of the decision, by the date of the last review. *)
Lemma newStreak_same_day today y cs :
  UserStreaks.last_review_date cs = Some today →
  Streak.newStreak today y (Some cs) = inl (UserStreaks.daily_streak cs).
Proof. intros H. unfold Streak.newStreak. rewrite H. simpl. by rewrite Z.eqb_refl. Qed.

Lemma newStreak_yesterday today cs :
  UserStreaks.last_review_date cs = Some (today - 1) →
  Streak.newStreak today (today - 1) (Some cs)
  = inr (UserStreaks.daily_streak cs + 1).
Proof.
  intros H. unfold Streak.newStreak. rewrite H. simpl.
  rewrite Z.eqb_refl. by replace (today - 1 =? today)%Z with false by lia.
Qed.

Lemma newStreak_reset today cs :
  date_is (UserStreaks.last_review_date cs) today = false →
  date_is (UserStreaks.last_review_date cs) (today - 1) = false →
  Streak.newStreak today (today - 1) (Some cs) = inr 1.
Proof. intros H1 H2. unfold Streak.newStreak. by rewrite H1, H2. Qed.

Lemma update_reads_row w st u cs :
  select_ok w = true →
  user_streaks st !! id u = Some cs →
  Streak.update w st u
  = match Streak.newStreak (isoDate (now w)) (isoDate (now w) - 1) (Some cs) with
    | inl s => (Json s, st)
    | inr n =>
        if upsert_ok w
        then (Json n,
              with_streaks st
                (<[id u := {| UserStreaks.daily_streak := n;
                              UserStreaks.last_review_date := Some (isoDate (now w));
                              UserStreaks.updated_at := now w |}]>
                   (user_streaks st)))
        else (Fail 500 "Failed to update streak", st)
    end.
Proof.
  intros Hsel Hrow. unfold Streak.update.
  by rewrite Hsel, Hrow, isoDate_setDate_prev.
Qed.

(** After a call that answered with a streak, the row of the user holds
    that streak and the date of the call. *)
Lemma update_Json_row w st u s st' :
  Streak.update w st u = (Json s, st') →
  ∃ cs, user_streaks st' !! id u = Some cs
        ∧ UserStreaks.daily_streak cs = s
        ∧ UserStreaks.last_review_date cs = Some (isoDate (now w)).
Proof.
  unfold Streak.update. intros H.
  destruct (Streak.newStreak _ _ _) as [s0|n] eqn:Hd.
  - injection H as <- <-.
    unfold Streak.newStreak in Hd.
    destruct (if select_ok w then _ else _) as [cs|] eqn:Hcs; [|done].
    destruct (select_ok w); [|done].
    destruct (date_is _ (isoDate (now w))) eqn:Hsame.
    + injection Hd as <-. exists cs. split; [done|]. split; [done|].
      destruct (UserStreaks.last_review_date cs) as [d|]; [|done].
      apply date_is_Some in Hsame. by subst.
    + destruct (date_is _ (isoDate (setDate_prev (now w)))); discriminate.
  - destruct (upsert_ok w); [|done]. injection H as <- <-.
    eexists. split; [apply lookup_insert_eq|]. done.
Qed.

(** C4: when the stored streak of the user has today's date as its last
    review date, the update changes nothing in the store and answers with
    the stored streak; hence a call that follows, on the same day, a call
    that answered with a streak answers with the same streak and leaves
    the store as the first call left it. *)
Theorem streak_same_day_idempotent (w : world) (st : store) (u : user) :
  select_ok w = true →
  (∀ cs, user_streaks st !! id u = Some cs →
         UserStreaks.last_review_date cs = Some (isoDate (now w)) →
         Streak.update w st u = (Json (UserStreaks.daily_streak cs), st))
  ∧ (∀ w0 st0 s, isoDate (now w0) = isoDate (now w) →
                 Streak.update w0 st0 u = (Json s, st) →
                 Streak.update w st u = (Json s, st)).
Proof.
  intros Hsel.
  assert (Hsame : ∀ cs, user_streaks st !! id u = Some cs →
            UserStreaks.last_review_date cs = Some (isoDate (now w)) →
            Streak.update w st u = (Json (UserStreaks.daily_streak cs), st)).
  { intros cs Hrow Hlast.
    rewrite (update_reads_row w st u cs Hsel Hrow).
    by rewrite (newStreak_same_day _ _ cs Hlast). }
  split; [exact Hsame|].
  intros w0 st0 s Hday Hfirst.
  destruct (update_Json_row _ _ _ _ _ Hfirst) as (cs & Hrow & <- & Hlast).
  apply Hsame; [done|]. by rewrite <- Hday.
Qed.

Lemma streak_same_day_idempotent_witness :
  select_ok Sample.w = true
  ∧ Streak.update Sample.w (Sample.streaks 3 19728) Sample.u
    = (Json 3, Sample.streaks 3 19728)
  ∧ (let st1 := (Streak.update Sample.w (Sample.streaks 3 19727) Sample.u).2 in
     Streak.update Sample.w st1 Sample.u = (Json 4, st1)).
Proof.
  split; [reflexivity|]. split.
  - apply (proj1 (streak_same_day_idempotent Sample.w (Sample.streaks 3 19728)
                    Sample.u eq_refl) (Sample.streak_row 3 19728));
      reflexivity.
  - apply (proj2 (streak_same_day_idempotent Sample.w _ Sample.u eq_refl)
             Sample.w (Sample.streaks 3 19727) 4); reflexivity.
Defined.

(** C5: when the stored streak of the user has the day before today as
    its last review date, the update answers with the stored streak plus
    one and stores that value with today's date. *)
Theorem streak_consecutive_day (w : world) (st : store) (u : user)
    (cs : UserStreaks.row) :
  select_ok w = true →
  upsert_ok w = true →
  user_streaks st !! id u = Some cs →
  UserStreaks.last_review_date cs = Some (isoDate (now w) - 1) →
  Streak.update w st u
  = (Json (UserStreaks.daily_streak cs + 1),
     with_streaks st
       (<[id u := {| UserStreaks.daily_streak := UserStreaks.daily_streak cs + 1;
                     UserStreaks.last_review_date := Some (isoDate (now w));
                     UserStreaks.updated_at := now w |}]>
          (user_streaks st))).
Proof.
  intros Hsel Hup Hrow Hlast.
  rewrite (update_reads_row w st u cs Hsel Hrow).
  by rewrite (newStreak_yesterday _ cs Hlast), Hup.
Qed.

(** The streak 3 of 2024-01-05 becomes 4 on 2024-01-06. *)
Lemma streak_consecutive_day_witness :
  (select_ok Sample.w = true ∧ upsert_ok Sample.w = true
   ∧ user_streaks (Sample.streaks 3 19727) !! id Sample.u
     = Some (Sample.streak_row 3 19727)
   ∧ UserStreaks.last_review_date (Sample.streak_row 3 19727)
     = Some (isoDate (now Sample.w) - 1))
  ∧ ∃ st', Streak.update Sample.w (Sample.streaks 3 19727) Sample.u = (Json 4, st')
           ∧ user_streaks st' !! "u1"
             = Some {| UserStreaks.daily_streak := 4;
                       UserStreaks.last_review_date := Some 19728;
                       UserStreaks.updated_at := Sample.noon |}.
Proof.
  split; [repeat split; reflexivity|].
  eexists. split.
  - apply (streak_consecutive_day Sample.w (Sample.streaks 3 19727) Sample.u
             (Sample.streak_row 3 19727)); reflexivity.
  - reflexivity.
Defined.

(** C6: when the user has no stored streak, or the last review date of the
    stored streak is two or more days before today, or after today, the
    update answers with 1 and stores the streak 1 with today's date. *)
Theorem streak_reset (w : world) (st : store) (u : user) :
  upsert_ok w = true →
  user_streaks st !! id u = None
  ∨ (∃ cs d, user_streaks st !! id u = Some cs
             ∧ UserStreaks.last_review_date cs = Some d
             ∧ (d ≤ isoDate (now w) - 2 ∨ isoDate (now w) < d)) →
  Streak.update w st u
  = (Json 1,
     with_streaks st
       (<[id u := {| UserStreaks.daily_streak := 1;
                     UserStreaks.last_review_date := Some (isoDate (now w));
                     UserStreaks.updated_at := now w |}]>
          (user_streaks st))).
Proof.
  intros Hup Hcases.
  assert (Hnew : Streak.newStreak (isoDate (now w)) (isoDate (setDate_prev (now w)))
                   (if select_ok w then user_streaks st !! id u else None)
                 = inr 1).
  { destruct (select_ok w); [|done].
    destruct Hcases as [->|(cs & d & -> & Hlast & Hgap)]; [done|].
    rewrite isoDate_setDate_prev.
    apply newStreak_reset; rewrite Hlast; apply date_is_ne; lia. }
  unfold Streak.update. by rewrite Hnew, Hup.
Qed.

(** The streak 5 of 2024-01-01 is reset to 1 on 2024-01-06, and a user
    without a streak starts at 1. *)
Lemma streak_reset_witness :
  (upsert_ok Sample.w = true
   ∧ user_streaks (Sample.streaks 5 19723) !! id Sample.u
     = Some (Sample.streak_row 5 19723)
   ∧ 19723 ≤ isoDate (now Sample.w) - 2)
  ∧ (∃ st', Streak.update Sample.w (Sample.streaks 5 19723) Sample.u = (Json 1, st')
            ∧ user_streaks st' !! "u1"
              = Some {| UserStreaks.daily_streak := 1;
                        UserStreaks.last_review_date := Some 19728;
                        UserStreaks.updated_at := Sample.noon |})
  ∧ (Streak.update Sample.w Sample.empty Sample.u).1 = Json 1.
Proof.
  split; [repeat split; vm_compute; congruence|]. split.
  - eexists. split.
    + apply (streak_reset Sample.w (Sample.streaks 5 19723) Sample.u eq_refl).
      right. exists (Sample.streak_row 5 19723), 19723.
      repeat split. left. vm_compute. congruence.
    + reflexivity.
  - by rewrite (streak_reset Sample.w Sample.empty Sample.u eq_refl (or_introl eq_refl)).
Defined.

(** ** The settings *)

(** C9: for a user without stored settings the resolved settings are the
    defaults in every field, and the username of the account (or ["User"]
    when the account has none) is used for the profile name only. *)
Theorem settings_defaults (w : world) (st : store) (u : user) :
  select_ok w = true →
  user_settings st !! id u = None →
  Settings.get w st u
  = Json {| Settings.profileName := or_else (username u) (VStr "User");
            Settings.maxLevel := VNum 10;
            Settings.jlptLevel := VStr "all";
            Settings.maxInterval := VNum 180;
            Settings.showProgress := VBool true;
            Settings.showDrawing := VBool true;
            Settings.showStudyProgress := VBool true;
            Settings.defaultQuestionMode := VStr "meaning-first";
            Settings.darkMode := VBool false;
            Settings.language := VStr "en" |}
  ∧ (truthy (username u) = true →
     or_else (username u) (VStr "User") = username u).
Proof.
  intros Hsel Hrow. split; [|apply or_else_truthy].
  unfold Settings.get. by rewrite Hsel, Hrow.
Qed.

Lemma settings_defaults_witness :
  (select_ok Sample.w = true ∧ user_settings Sample.empty !! id Sample.u = None)
  ∧ Settings.get Sample.w Sample.empty Sample.u
    = Json {| Settings.profileName := VStr "peyton";
              Settings.maxLevel := VNum 10;
              Settings.jlptLevel := VStr "all";
              Settings.maxInterval := VNum 180;
              Settings.showProgress := VBool true;
              Settings.showDrawing := VBool true;
              Settings.showStudyProgress := VBool true;
              Settings.defaultQuestionMode := VStr "meaning-first";
              Settings.darkMode := VBool false;
              Settings.language := VStr "en" |}.
Proof.
  split; [split; reflexivity|].
  exact (proj1 (settings_defaults Sample.w Sample.empty Sample.u eq_refl eq_refl)).
Defined.

(** A stored row whose columns are all [null] resolves to the defaults as
    well. *)
Lemma resolve_null_row u :
  Settings.resolve u (Some Sample.null_settings) = Settings.defaultSettings u.
Proof. done. Qed.

(** The toggles are compared with [null], and a stored [false] stays. *)
Lemma resolve_keeps_false u data :
  UserSettings.show_progress data = VBool false →
  Settings.showProgress (Settings.resolve u (Some data)) = VBool false.
Proof. simpl. by intros ->. Qed.

(** C10: in stored settings, a falsy value (0, the empty string, [false],
    [null]) of a column that is resolved with [||] is replaced by the
    default of the field: a stored level 0 resolves to 10 and an empty
    stored profile name to the username of the account. *)
Theorem settings_falsy_replaced (w : world) (st : store) (u : user)
    (data : UserSettings.row) :
  select_ok w = true →
  user_settings st !! id u = Some data →
  ∃ s, Settings.get w st u = Json s
    ∧ (truthy (UserSettings.profile_name data) = false →
       Settings.profileName s = or_else (username u) (VStr "User"))
    ∧ (truthy (UserSettings.max_level data) = false →
       Settings.maxLevel s = VNum 10)
    ∧ (truthy (UserSettings.jlpt_level data) = false →
       Settings.jlptLevel s = VStr "all")
    ∧ (truthy (UserSettings.max_interval data) = false →
       Settings.maxInterval s = VNum 180)
    ∧ (truthy (UserSettings.default_question_mode data) = false →
       Settings.defaultQuestionMode s = VStr "meaning-first")
    ∧ (truthy (UserSettings.language data) = false →
       Settings.language s = VStr "en").
Proof.
  intros Hsel Hrow. eexists. split.
  { unfold Settings.get. by rewrite Hsel, Hrow. }
  simpl. repeat split; apply or_else_falsy.
Qed.

(** The stored level 0 and the stored empty name are present and are not
    what the resolved settings hold. *)
Lemma settings_falsy_replaced_witness :
  (select_ok Sample.w = true
   ∧ user_settings (Sample.with_row Sample.settings_falsy) !! id Sample.u
     = Some Sample.settings_falsy)
  ∧ ∃ s, Settings.get Sample.w (Sample.with_row Sample.settings_falsy) Sample.u
         = Json s
      ∧ UserSettings.max_level Sample.settings_falsy = VNum 0
      ∧ Settings.maxLevel s = VNum 10
      ∧ UserSettings.profile_name Sample.settings_falsy = VStr ""
      ∧ Settings.profileName s = VStr "peyton".
Proof.
  split; [split; reflexivity|].
  destruct (settings_falsy_replaced Sample.w (Sample.with_row Sample.settings_falsy)
              Sample.u Sample.settings_falsy eq_refl eq_refl)
    as (s & Hget & Hname & Hlevel & _).
  exists s. split; [exact Hget|]. split; [reflexivity|].
  split; [apply Hlevel; reflexivity|]. split; [reflexivity|].
  rewrite Hname; reflexivity.
Defined.

Section SettingsSave.

Variable toISOString : Z → string.

Lemma put_rejected w st u body b :
  Settings.destructure body = Some b →
  Settings.language_accepted (Settings.language b) = false →
  Settings.put toISOString w st u body = (Fail 400 Settings.invalid_language, st).
Proof.
  unfold Settings.language_accepted, Settings.put. intros -> H.
  apply orb_false_elim in H as [H1 H2].
  apply negb_false_iff in H1. by rewrite H1, H2.
Qed.

Lemma put_accepted w st u body b :
  Settings.destructure body = Some b →
  Settings.language_accepted (Settings.language b) = true →
  upsert_ok w = true →
  Settings.put toISOString w st u body
  = (Json (),
     with_settings st
       (<[id u := Db.merge_settings (Settings.settingsData toISOString w b)
                    (user_settings st !! id u)]> (user_settings st))).
Proof.
  unfold Settings.language_accepted, Settings.put. intros -> H ->.
  destruct (truthy (Settings.language b)); simpl in *; [|done].
  by rewrite H.
Qed.

(** C7, as the handler has it: a language that is truthy (so not the
    empty string, 0, [false] or [null]) and is neither ["en"] nor ["ja"]
    is refused with status 400, and the store is left as it was. *)
Theorem settings_invalid_language_rejected (w : world) (st : store) (u : user)
    (body : value) (b : Settings.settings) :
  Settings.destructure body = Some b →
  truthy (Settings.language b) = true →
  includes ["en"; "ja"] (Settings.language b) = false →
  Settings.put toISOString w st u body = (Fail 400 Settings.invalid_language, st).
Proof.
  intros Hb Ht Hi. apply (put_rejected w st u body b Hb).
  unfold Settings.language_accepted. by rewrite Ht, Hi.
Qed.

(** C3, as the handler has it: a save that the store accepts leaves every
    column other than [language] and [updated_at] whose field the request
    omits as it was ([null] when the user had no row) and writes the
    fields that the request has; [language] is written in every save, as
    ["en"] when the request omits it. *)
Theorem settings_save_merges (w : world) (st : store) (u : user)
    (body : value) (b : Settings.settings) :
  Settings.destructure body = Some b →
  Settings.language_accepted (Settings.language b) = true →
  upsert_ok w = true →
  ∃ r, Settings.put toISOString w st u body = (Json (), with_settings st (<[id u := r]> (user_settings st)))
    ∧ (∀ (field : Settings.settings → value) (col : UserSettings.row → value),
         (field, col) ∈
           [ (Settings.profileName, UserSettings.profile_name);
             (Settings.maxLevel, UserSettings.max_level);
             (Settings.jlptLevel, UserSettings.jlpt_level);
             (Settings.maxInterval, UserSettings.max_interval);
             (Settings.showProgress, UserSettings.show_progress);
             (Settings.showDrawing, UserSettings.show_drawing);
             (Settings.showStudyProgress, UserSettings.show_study_progress);
             (Settings.defaultQuestionMode, UserSettings.default_question_mode);
             (Settings.darkMode, UserSettings.dark_mode) ] →
         (field b = VUndefined →
          col r = from_option col VNull (user_settings st !! id u))
         ∧ (field b ≠ VUndefined → col r = field b))
    ∧ UserSettings.language r = or_else (Settings.language b) (VStr "en")
    ∧ (Settings.language b = VUndefined → UserSettings.language r = VStr "en").
Proof.
  intros Hb Hl Hup. eexists. split; [by apply put_accepted|].
  split; [|split].
  - intros field col Hin.
    repeat (apply elem_of_cons in Hin as [[= -> ->]|Hin];
            [simpl; split; [by intros ->|apply merge_col_defined]|]).
    by apply elem_of_nil in Hin.
  - simpl. apply merge_col_defined, or_else_defined. done.
  - intros Hlang. simpl. rewrite Hlang. done.
Qed.

End SettingsSave.

(** ["fr"] is refused and nothing is written. *)
Lemma settings_invalid_language_rejected_witness :
  (Settings.destructure Sample.body_fr
   = Some {| Settings.profileName := VUndefined; Settings.maxLevel := VUndefined;
             Settings.jlptLevel := VUndefined; Settings.maxInterval := VUndefined;
             Settings.showProgress := VUndefined; Settings.showDrawing := VUndefined;
             Settings.showStudyProgress := VUndefined;
             Settings.defaultQuestionMode := VUndefined;
             Settings.darkMode := VUndefined; Settings.language := VStr "fr" |}
   ∧ truthy (VStr "fr") = true
   ∧ includes ["en"; "ja"] (VStr "fr") = false)
  ∧ Settings.put Sample.toISOString Sample.w (Sample.with_row Sample.settings_ja)
      Sample.u Sample.body_fr
    = (Fail 400 Settings.invalid_language, Sample.with_row Sample.settings_ja).
Proof.
  split; [repeat split; reflexivity|].
  eapply settings_invalid_language_rejected; reflexivity.
Defined.

(** The empty string is a language that is present and is neither ["en"]
    nor ["ja"]; the save is accepted all the same and writes ["en"] over
    the stored ["ja"]. *)
Lemma settings_empty_language_accepted :
  Js.get "language" Sample.body_empty_language = Some (VStr "")
  ∧ includes ["en"; "ja"] (VStr "") = false
  ∧ UserSettings.language
      <$> user_settings (Sample.with_row Sample.settings_ja) !! "u1"
    = Some (VStr "ja")
  ∧ ∃ st', Settings.put Sample.toISOString Sample.w
             (Sample.with_row Sample.settings_ja) Sample.u
             Sample.body_empty_language
           = (Json (), st')
        ∧ UserSettings.language <$> user_settings st' !! "u1" = Some (VStr "en").
Proof. repeat split. eexists. split; reflexivity. Qed.

(** A save of the level alone keeps the stored name and the stored
    toggle, and writes the level and the language ["en"]. *)
Lemma settings_save_merges_witness :
  (∃ b, Settings.destructure Sample.body_level = Some b
        ∧ Settings.language_accepted (Settings.language b) = true
        ∧ upsert_ok Sample.w = true)
  ∧ ∃ r, Settings.put Sample.toISOString Sample.w
           (Sample.with_row Sample.settings_ja) Sample.u Sample.body_level
         = (Json (),
            with_settings (Sample.with_row Sample.settings_ja)
              (<[ "u1" := r ]> (user_settings (Sample.with_row Sample.settings_ja))))
      ∧ UserSettings.profile_name r = VStr "Peyton"
      ∧ UserSettings.show_progress r = VBool false
      ∧ UserSettings.max_level r = VNum 5
      ∧ UserSettings.language r = VStr "en".
Proof.
  split; [eexists; repeat split; reflexivity|].
  destruct (settings_save_merges Sample.toISOString Sample.w
              (Sample.with_row Sample.settings_ja) Sample.u Sample.body_level _
              eq_refl eq_refl eq_refl)
    as (r & Hput & Hcols & Hlang & Homit).
  exists r. split; [exact Hput|].
  split; [|split; [|split]].
  - apply (Hcols Settings.profileName UserSettings.profile_name); [|reflexivity].
    repeat constructor.
  - apply (Hcols Settings.showProgress UserSettings.show_progress); [|reflexivity].
    repeat constructor.
  - apply (Hcols Settings.maxLevel UserSettings.max_level); [|discriminate].
    repeat constructor.
  - apply Homit. reflexivity.
Defined.

(** The request omits the language, the stored language is ["ja"], and
    the save writes the language ["en"]. *)
Lemma settings_omitted_language_written :
  Js.get "language" Sample.body_level = Some VUndefined
  ∧ UserSettings.language
      <$> user_settings (Sample.with_row Sample.settings_ja) !! "u1"
    = Some (VStr "ja")
  ∧ ∃ st', Settings.put Sample.toISOString Sample.w
             (Sample.with_row Sample.settings_ja) Sample.u Sample.body_level
           = (Json (), st')
        ∧ UserSettings.language <$> user_settings st' !! "u1" = Some (VStr "en").
Proof. repeat split. eexists. split; reflexivity. Qed.

(** ** The progress records *)

Import UserKanjiProgress.

Lemma merge_progress_all_sent r old :
  Progress.all_sent r → Db.merge_progress r old = r.
Proof.
  intros (?&?&?&?&?&?&?&?&?&?&?). destruct r; simpl in *.
  unfold Db.merge_progress; simpl. f_equal; by apply merge_col_defined.
Qed.

(** The counters of a merged row are those of the data: the handlers
    always send them. *)
Lemma merge_progress_counters r old :
  correct_reviews r ≠ VUndefined → total_reviews r ≠ VUndefined →
  correct_reviews (Db.merge_progress r old) = correct_reviews r
  ∧ total_reviews (Db.merge_progress r old) = total_reviews r.
Proof. intros. simpl. split; by apply merge_col_defined. Qed.

Lemma counters_from_ok c t r qc qt :
  Progress.counters_from c t r →
  c = VNum qc → t = VNum qt → (qc <= qt)%Q →
  Progress.reviews_ok r.
Proof.
  intros [Hc Ht] -> -> Hle. unfold Progress.reviews_ok.
  rewrite Hc, Ht. unfold or_else. simpl.
  destruct (Qeq_bool qc 0) eqn:Ec; destruct (Qeq_bool qt 0) eqn:Et; simpl;
    eexists _, _; (split; [reflexivity|split; [reflexivity|]]).
  - apply Qle_refl.
  - apply Qeq_bool_iff in Ec. by rewrite <- Ec.
  - apply Qeq_bool_iff in Et. by rewrite <- Et.
  - done.
Qed.

Section ProgressUpserts.

Variable parseInt : value → value.
Variable toISOString : Z → string.
Variable item_key : value → option Z.

Lemma progressData_inv w body kid r :
  Progress.progressData toISOString w body = Some (kid, r) →
  ∃ c t, Js.get "kanji_id" body = Some kid
    ∧ Js.get "correct_reviews" body = Some c
    ∧ Js.get "total_reviews" body = Some t
    ∧ Progress.counters_from c t r
    ∧ correct_reviews r ≠ VUndefined ∧ total_reviews r ≠ VUndefined.
Proof.
  unfold Progress.progressData. intros H.
  destruct body; simplify_option_eq;
    (eexists _, _; repeat split; by apply or_else_defined).
Qed.

Lemma progressRecord_inv w entry kid r :
  Progress.progressRecord parseInt toISOString w entry = Some (kid, r) →
  ∃ kanjiId pd c t, destructure2 entry = Some (kanjiId, pd)
    ∧ kid = parseInt kanjiId
    ∧ Js.get "correctReviews" pd = Some c
    ∧ Js.get "totalReviews" pd = Some t
    ∧ Progress.counters_from c t r
    ∧ Progress.all_sent r.
Proof.
  unfold Progress.progressRecord. intros H.
  destruct (destructure2 entry) as [[kanjiId pd]|]; [|done]. simpl in H.
  exists kanjiId, pd.
  destruct pd; simplify_option_eq;
    (eexists _, _; repeat split; try (by apply or_else_defined); done).
Qed.

(** *** The upsert of an array of rows *)

Lemma upsert_progress_Some uid r t t' :
  Db.upsert_progress item_key uid r t = Some t' →
  ∃ k, item_key r.1 = Some k
       ∧ t' = <[(uid, k) := Db.merge_progress r.2 (t !! (uid, k))]> t.
Proof.
  unfold Db.upsert_progress. intros H.
  destruct (item_key r.1) as [k|]; [|done]. simpl in H.
  exists k. split; [done|]. by injection H as <-.
Qed.

(** Rows of other items are not touched. *)
Lemma upsert_all_other uid rs : ∀ t t' key,
  Db.upsert_all item_key uid rs t = Some t' →
  (∀ r k, r ∈ rs → item_key r.1 = Some k → (uid, k) ≠ key) →
  t' !! key = t !! key.
Proof.
  induction rs as [|r rs IH]; intros t t' key Hall Hne; simpl in Hall.
  - by injection Hall as <-.
  - destruct (Db.upsert_progress item_key uid r t) as [t1|] eqn:H1; [|done].
    simpl in Hall.
    apply upsert_progress_Some in H1 as (k & Hk & ->).
    rewrite (IH _ _ key Hall).
    + apply lookup_insert_ne. apply (Hne r k); [left|done].
    + intros r' k' Hin. apply Hne. by right.
Qed.

(** The row of an item after the upsert is that of its last occurrence in
    the array. *)
Lemma upsert_all_last uid rs : ∀ t t' i r k,
  Db.upsert_all item_key uid rs t = Some t' →
  rs !! i = Some r →
  item_key r.1 = Some k →
  (∀ j r', (i < j)%nat → rs !! j = Some r' → item_key r'.1 ≠ Some k) →
  Progress.all_sent r.2 →
  t' !! (uid, k) = Some r.2.
Proof.
  induction rs as [|r0 rs IH]; intros t t' i r k Hall Hi Hk Hlast Hsent; [done|].
  simpl in Hall.
  destruct (Db.upsert_progress item_key uid r0 t) as [t1|] eqn:H1; [|done].
  simpl in Hall.
  destruct i as [|i]; simpl in Hi.
  - injection Hi as ->.
    apply upsert_progress_Some in H1 as (k' & Hk' & ->).
    assert (k' = k) as -> by congruence.
    rewrite (upsert_all_other uid rs _ _ (uid, k) Hall).
    + rewrite lookup_insert_eq. f_equal. by apply merge_progress_all_sent.
    + intros r' k' Hin Hk'' [= ->].
      apply list_elem_of_lookup in Hin as [j Hj].
      apply (Hlast (S j) r'); [lia|done|done].
  - apply (IH t1 t' i r k Hall Hi Hk); [|done].
    intros j r' Hij Hj. apply (Hlast (S j) r'); [lia|done].
Qed.

(** Every row after the upsert was there before or comes from a row of
    the array. *)
Lemma upsert_all_from uid rs : ∀ t t' key row,
  Db.upsert_all item_key uid rs t = Some t' →
  t' !! key = Some row →
  t !! key = Some row
  ∨ ∃ r old, r ∈ rs ∧ row = Db.merge_progress r.2 old.
Proof.
  induction rs as [|r0 rs IH]; intros t t' key row Hall Hrow; simpl in Hall.
  - injection Hall as <-. by left.
  - destruct (Db.upsert_progress item_key uid r0 t) as [t1|] eqn:H1; [|done].
    simpl in Hall.
    apply upsert_progress_Some in H1 as (k & Hk & ->).
    destruct (IH _ _ key row Hall Hrow) as [H|(r & old & Hin & ->)].
    + destruct (decide ((uid, k) = key)) as [<-|Hne].
      * rewrite lookup_insert_eq in H. injection H as <-.
        right. exists r0, (t !! (uid, k)). split; [left|done].
      * rewrite lookup_insert_ne in H by done. by left.
    + right. exists r, old. split; [by right|done].
Qed.

(** *** The handlers *)

Lemma bulk_update_Json w st u body n st' :
  Progress.bulk_update parseInt toISOString item_key w st u body = (Json n, st') →
  ∃ items rs t,
    Js.get "kanjiProgressData" body = Some (VArr items)
    ∧ mapM (Progress.progressRecord parseInt toISOString w) items = Some rs
    ∧ Db.upsert_all item_key (id u) rs (user_kanji_progress st) = Some t
    ∧ n = length items ∧ st' = with_progress st t.
Proof.
  unfold Progress.bulk_update. intros H.
  destruct (Js.get "kanjiProgressData" body) as [kpd|]; [|done].
  destruct kpd as [| |b|q| |s|items|props];
    try (simpl in H; rewrite ?orb_true_r in H; done).
  simpl in H.
  destruct (mapM _ items) as [rs|] eqn:Hrs; [|discriminate H].
  destruct (upsert_ok w); [|discriminate H].
  destruct (Db.upsert_all _ _ _ _) as [t|] eqn:Ht; [|discriminate H].
  injection H as <- <-. by exists items, rs, t.
Qed.

Lemma bulk_update_run w st u body items rs t :
  Js.get "kanjiProgressData" body = Some (VArr items) →
  mapM (Progress.progressRecord parseInt toISOString w) items = Some rs →
  upsert_ok w = true →
  Db.upsert_all item_key (id u) rs (user_kanji_progress st) = Some t →
  Progress.bulk_update parseInt toISOString item_key w st u body
  = (Json (length items), with_progress st t).
Proof.
  unfold Progress.bulk_update. intros -> Hrs -> Ht. simpl. by rewrite Hrs, Ht.
Qed.

End ProgressUpserts.

Section ProgressClaims.

Variable parseInt : value → value.
Variable toISOString : Z → string.
Variable item_key : value → option Z.

(** C1, as the handlers have it: neither upsert checks the counters.
    POST /api/progress/update never answers with status 400, and what
    the store accepts is written with [correct_reviews] and
    [total_reviews] as the request has them, 0 in place of a falsy value;
    after a bulk update every row of the user is the row that was there or
    has the counters of an entry of the batch in the same way.  So a row
    that is written satisfies [correct_reviews ≤ total_reviews] whenever
    the numbers of the request do. *)
Theorem progress_counters_as_supplied (w : world) (st : store) (u : user) :
  (∀ body kid r k,
     Progress.progressData toISOString w body = Some (kid, r) →
     upsert_ok w = true →
     item_key kid = Some k →
     ∃ c t row,
       Js.get "correct_reviews" body = Some c
       ∧ Js.get "total_reviews" body = Some t
       ∧ Progress.update toISOString item_key w st u body
         = (Json (),
            with_progress st (<[(id u, k) := row]> (user_kanji_progress st)))
       ∧ Progress.counters_from c t row
       ∧ (∀ qc qt, c = VNum qc → t = VNum qt → (qc <= qt)%Q →
                   Progress.reviews_ok row))
  ∧ (∀ body e st',
       Progress.update toISOString item_key w st u body ≠ (Fail 400 e, st'))
  ∧ (∀ body n st' k row,
       Progress.bulk_update parseInt toISOString item_key w st u body
       = (Json n, st') →
       user_kanji_progress st' !! (id u, k) = Some row →
       user_kanji_progress st !! (id u, k) = Some row
       ∨ ∃ items entry kanjiId pd c t,
           Js.get "kanjiProgressData" body = Some (VArr items)
           ∧ entry ∈ items
           ∧ destructure2 entry = Some (kanjiId, pd)
           ∧ Js.get "correctReviews" pd = Some c
           ∧ Js.get "totalReviews" pd = Some t
           ∧ Progress.counters_from c t row
           ∧ (∀ qc qt, c = VNum qc → t = VNum qt → (qc <= qt)%Q →
                       Progress.reviews_ok row)).
Proof.
  split; [|split].
  - intros body kid r k Hdata Hup Hk.
    destruct (progressData_inv _ _ _ _ _ Hdata)
      as (c & t & _ & Hc & Ht & [Hfc Hft] & Hdc & Hdt).
    destruct (merge_progress_counters r (user_kanji_progress st !! (id u, k))
                Hdc Hdt) as [Hmc Hmt].
    assert (Hfrom : Progress.counters_from c t
              (Db.merge_progress r (user_kanji_progress st !! (id u, k)))).
    { split; congruence. }
    exists c, t, (Db.merge_progress r (user_kanji_progress st !! (id u, k))).
    split; [done|]. split; [done|]. split; [|split; [done|]].
    + unfold Progress.update, Db.upsert_progress.
      rewrite Hdata, Hup. simpl. by rewrite Hk.
    + intros qc qt. by apply counters_from_ok.
  - intros body e st' H. unfold Progress.update in H.
    destruct (Progress.progressData _ _ _); [|discriminate H].
    destruct (if upsert_ok w then _ else _); discriminate H.
  - intros body n st' k row Hbulk Hrow.
    apply bulk_update_Json in Hbulk as (items & rs & t & Hget & Hrs & Ht & _ & ->).
    simpl in Hrow.
    destruct (upsert_all_from _ _ _ _ _ _ _ Ht Hrow) as [H|(r & old & Hin & ->)];
      [by left|right].
    apply mapM_Some in Hrs.
    apply list_elem_of_lookup in Hin as [i Hi].
    destruct (Forall2_lookup_r _ _ _ _ _ Hrs Hi) as (entry & Hentry & Hrec).
    destruct r as [kid r].
    destruct (progressRecord_inv _ _ _ _ _ _ Hrec)
      as (kanjiId & pd & c & tt & Hd & _ & Hc & Htt & Hfrom & Hsent).
    exists items, entry, kanjiId, pd, c, tt. simpl.
    rewrite (merge_progress_all_sent r old Hsent).
    repeat (split; [first [done | by eapply list_elem_of_lookup_2]|]).
    intros qc qt. by apply counters_from_ok.
Qed.

(** C2: after a bulk update that succeeded, the row of an item is the
    record of the last entry of the batch for that item, whatever entries
    for the same item come before it. *)
Theorem bulk_last_occurrence_wins (w : world) (st st' : store) (u : user)
    (body : value) (n : nat) (items : list value) (i : nat) (entry kid : value)
    (r : row) (k : Z) :
  Progress.bulk_update parseInt toISOString item_key w st u body = (Json n, st') →
  Js.get "kanjiProgressData" body = Some (VArr items) →
  items !! i = Some entry →
  Progress.progressRecord parseInt toISOString w entry = Some (kid, r) →
  item_key kid = Some k →
  (∀ j entry' kid' r',
     (i < j)%nat → items !! j = Some entry' →
     Progress.progressRecord parseInt toISOString w entry' = Some (kid', r') →
     item_key kid' ≠ Some k) →
  user_kanji_progress st' !! (id u, k) = Some r.
Proof.
  intros Hbulk Hget Hi Hrec Hk Hlast.
  apply bulk_update_Json in Hbulk as (items' & rs & t & Hget' & Hrs & Ht & _ & ->).
  assert (items' = items) as -> by congruence.
  apply mapM_Some in Hrs. simpl.
  destruct (Forall2_lookup_l _ _ _ _ _ Hrs Hi) as (r0 & Hr0 & Hrec0).
  assert (r0 = (kid, r)) as -> by congruence.
  apply (upsert_all_last item_key (id u) rs _ _ i (kid, r) k Ht Hr0 Hk).
  - intros j [kid' r'] Hij Hj.
    destruct (Forall2_lookup_r _ _ _ _ _ Hrs Hj) as (entry' & Hentry' & Hrec').
    by apply (Hlast j entry' kid' r').
  - by destruct (progressRecord_inv _ _ _ _ _ _ Hrec) as (?&?&?&?&?&?&?&?&?&?).
Qed.

(** C8: a bulk update whose [kanjiProgressData] is missing or is not an
    array is refused with status 400 and writes nothing, and one that
    succeeds answers with the number of entries of the batch. *)
Theorem bulk_shape_and_count (w : world) (st : store) (u : user) (body : value) :
  (∀ v, Js.get "kanjiProgressData" body = Some v → isArray v = false →
        Progress.bulk_update parseInt toISOString item_key w st u body
        = (Fail 400 "Invalid kanji progress data", st))
  ∧ (∀ n st',
       Progress.bulk_update parseInt toISOString item_key w st u body
       = (Json n, st') →
       ∃ items, Js.get "kanjiProgressData" body = Some (VArr items)
                ∧ n = length items)
  ∧ (∀ items rs t,
       Js.get "kanjiProgressData" body = Some (VArr items) →
       mapM (Progress.progressRecord parseInt toISOString w) items = Some rs →
       upsert_ok w = true →
       Db.upsert_all item_key (id u) rs (user_kanji_progress st) = Some t →
       Progress.bulk_update parseInt toISOString item_key w st u body
       = (Json (length items), with_progress st t)).
Proof.
  split; [|split].
  - intros v Hget Harr. unfold Progress.bulk_update.
    by rewrite Hget, Harr, orb_true_r.
  - intros n st' Hbulk.
    apply bulk_update_Json in Hbulk as (items & rs & t & Hget & _ & _ & -> & _).
    by exists items.
  - apply bulk_update_run.
Qed.

End ProgressClaims.

(** An update with 2 correct reviews out of 3 is stored as it is sent and
    satisfies the invariant. *)
Lemma progress_counters_as_supplied_witness :
  (∃ kid r, Progress.progressData Sample.toISOString Sample.w Sample.body_counts_ok
            = Some (kid, r)
            ∧ upsert_ok Sample.w = true ∧ Sample.item_key kid = Some 1)
  ∧ ∃ row, Progress.update Sample.toISOString Sample.item_key Sample.w
             Sample.empty Sample.u Sample.body_counts_ok
           = (Json (), with_progress Sample.empty {[ ("u1", 1) := row ]})
        ∧ correct_reviews row = VNum 2 ∧ total_reviews row = VNum 3
        ∧ Progress.reviews_ok row.
Proof.
  split; [eexists _, _; repeat split; reflexivity|].
  destruct (proj1 (progress_counters_as_supplied Sample.parseInt Sample.toISOString
                     Sample.item_key Sample.w Sample.empty Sample.u)
              Sample.body_counts_ok _ _ 1 eq_refl eq_refl eq_refl)
    as (c & t & row & Hc & Ht & Hupd & [Hfc Hft] & Hok).
  injection Hc as <-. injection Ht as <-.
  exists row. split; [exact Hupd|]. split; [exact Hfc|]. split; [exact Hft|].
  apply (Hok 2%Q 3%Q); [reflexivity|reflexivity|]. vm_compute. discriminate.
Defined.

(** An update with 5 correct reviews out of 3 is answered with success and
    stored: the row of the item breaks the invariant. *)
Lemma progress_update_stores_invalid_counters :
  ∃ st' row,
    Progress.update Sample.toISOString Sample.item_key Sample.w Sample.empty
      Sample.u Sample.body_counts
    = (Json (), st')
    ∧ user_kanji_progress st' !! ("u1", 1) = Some row
    ∧ correct_reviews row = VNum 5
    ∧ total_reviews row = VNum 3
    ∧ ¬ Progress.reviews_ok row.
Proof.
  eexists _, _. split; [reflexivity|]. split; [reflexivity|].
  split; [reflexivity|]. split; [reflexivity|].
  intros (c & t & Hc & Ht & Hle). simpl in Hc, Ht.
  injection Hc as <-. injection Ht as <-. by vm_compute in Hle.
Qed.

(** Of the two entries for item 7, the second is what the store holds. *)
Lemma bulk_last_occurrence_wins_witness :
  ∃ st' r,
    Progress.bulk_update Sample.parseInt Sample.toISOString Sample.item_key
      Sample.w Sample.empty Sample.u Sample.body_batch
    = (Json 3%nat, st')
    ∧ Sample.batch !! 2%nat
      = Some (VArr [VStr "7";
                    VObj (list_to_map
                            [("learned", VBool true); ("totalReviews", VNum 2)])])
    ∧ user_kanji_progress st' !! ("u1", 7) = Some r
    ∧ learned r = VBool true
    ∧ total_reviews r = VNum 2.
Proof.
  eexists _, _. split; [reflexivity|]. split; [reflexivity|]. split.
  - eapply (bulk_last_occurrence_wins Sample.parseInt Sample.toISOString
              Sample.item_key Sample.w Sample.empty _ Sample.u Sample.body_batch
              3%nat Sample.batch 2%nat);
      [reflexivity|reflexivity|reflexivity|reflexivity|reflexivity|].
    intros j entry' kid' r' Hj Hentry.
    destruct j as [|[|[|j]]]; [lia|lia|lia|discriminate Hentry].
  - split; reflexivity.
Defined.

(** A request without [kanjiProgressData], and one where it is an object,
    are refused; the batch of three entries is answered with 3. *)
Lemma bulk_shape_and_count_witness :
  Progress.bulk_update Sample.parseInt Sample.toISOString Sample.item_key
    Sample.w Sample.empty Sample.u Sample.body_no_batch
  = (Fail 400 "Invalid kanji progress data", Sample.empty)
  ∧ Progress.bulk_update Sample.parseInt Sample.toISOString Sample.item_key
      Sample.w Sample.empty Sample.u Sample.body_batch_object
    = (Fail 400 "Invalid kanji progress data", Sample.empty)
  ∧ (Progress.bulk_update Sample.parseInt Sample.toISOString Sample.item_key
       Sample.w Sample.empty Sample.u Sample.body_batch).1
    = Json 3%nat.
Proof.
  split; [|split].
  - apply (proj1 (bulk_shape_and_count Sample.parseInt Sample.toISOString
                    Sample.item_key Sample.w Sample.empty Sample.u
                    Sample.body_no_batch) VUndefined); reflexivity.
  - apply (proj1 (bulk_shape_and_count Sample.parseInt Sample.toISOString
                    Sample.item_key Sample.w Sample.empty Sample.u
                    Sample.body_batch_object) (VObj ∅)); reflexivity.
  - erewrite (proj2 (proj2 (bulk_shape_and_count Sample.parseInt
                              Sample.toISOString Sample.item_key Sample.w
                              Sample.empty Sample.u Sample.body_batch))
                Sample.batch); reflexivity.
Defined.

(** * Further properties of the handlers *)

(** ** The streak, read and over several days *)

Lemma or_zero_id n : Queries.or_zero n = n.
Proof. unfold Queries.or_zero. destruct (Z.eqb_spec n 0); congruence. Qed.

(** What GET /api/streak answers after an update that answered with a
    streak: that streak, and the day of the update. *)
Theorem streak_read_after_update (w w' : world) (st st' : store) (u : user)
    (s : Z) :
  Streak.update w st u = (Json s, st') →
  select_ok w' = true →
  Queries.get_streak w' st' u
  = Json {| Queries.dailyStreak := s;
            Queries.lastReviewDate := Some (isoDate (now w)) |}.
Proof.
  intros Hupd Hsel.
  destruct (update_Json_row _ _ _ _ _ Hupd) as (cs & Hrow & <- & Hlast).
  unfold Queries.get_streak. by rewrite Hsel, Hrow, or_zero_id, Hlast.
Qed.

Lemma streak_read_after_update_witness :
  ∃ st', Streak.update Sample.w (Sample.streaks 3 19727) Sample.u = (Json 4, st')
         ∧ Queries.get_streak Sample.w st' Sample.u
           = Json {| Queries.dailyStreak := 4;
                     Queries.lastReviewDate := Some 19728 |}.
Proof.
  eexists. split; [reflexivity|].
  apply (streak_read_after_update Sample.w Sample.w (Sample.streaks 3 19727));
    reflexivity.
Defined.

(** GET /api/streak does not look at the date: a streak whose last review
    is two or more days old is still answered as it is stored, while the
    update of the same moment starts again at 1. *)
Theorem streak_read_is_stale (w : world) (st : store) (u : user)
    (cs : UserStreaks.row) (d : date) :
  select_ok w = true →
  upsert_ok w = true →
  user_streaks st !! id u = Some cs →
  UserStreaks.last_review_date cs = Some d →
  d ≤ isoDate (now w) - 2 →
  Queries.get_streak w st u
  = Json {| Queries.dailyStreak := UserStreaks.daily_streak cs;
            Queries.lastReviewDate := Some d |}
  ∧ (Streak.update w st u).1 = Json 1.
Proof.
  intros Hsel Hup Hrow Hlast Hgap. split.
  - unfold Queries.get_streak. by rewrite Hsel, Hrow, or_zero_id, Hlast.
  - rewrite (update_reads_row w st u cs Hsel Hrow).
    rewrite newStreak_reset, Hup; [done| |];
      rewrite Hlast; apply date_is_ne; lia.
Qed.

Lemma streak_read_is_stale_witness :
  Queries.get_streak Sample.w (Sample.streaks 5 19723) Sample.u
  = Json {| Queries.dailyStreak := 5; Queries.lastReviewDate := Some 19723 |}
  ∧ (Streak.update Sample.w (Sample.streaks 5 19723) Sample.u).1 = Json 1.
Proof.
  apply (streak_read_is_stale Sample.w (Sample.streaks 5 19723) Sample.u
           (Sample.streak_row 5 19723) 19723); try reflexivity.
  vm_compute. discriminate.
Defined.

(** Updates on consecutive days, starting the day after the last review
    of the stored streak, answer with the stored streak plus 1, 2, 3... *)
Lemma streak_updates_from_row u ws : ∀ st d cs,
  user_streaks st !! id u = Some cs →
  UserStreaks.last_review_date cs = Some (d - 1) →
  (∀ i w, ws !! i = Some w →
          select_ok w = true ∧ upsert_ok w = true
          ∧ isoDate (now w) = d + Z.of_nat i) →
  (streak_updates ws st u).1
  = (λ i, Json (UserStreaks.daily_streak cs + 1 + Z.of_nat i))
      <$> seq 0 (length ws).
Proof.
  induction ws as [|w ws IH]; intros st d cs Hrow Hlast Hdays; [done|].
  destruct (Hdays 0%nat w eq_refl) as (Hsel & Hup & Hday).
  rewrite Z.add_0_r in Hday. simpl.
  rewrite (update_reads_row w st u cs Hsel Hrow), Hday.
  rewrite (newStreak_yesterday d cs Hlast), Hup.
  set (st1 := with_streaks st _).
  specialize (IH st1 (d + 1)
    {| UserStreaks.daily_streak := UserStreaks.daily_streak cs + 1;
       UserStreaks.last_review_date := Some d;
       UserStreaks.updated_at := now w |}).
  destruct (streak_updates ws st1 u) as [rs st2]. simpl in *.
  rewrite Z.add_0_r. f_equal.
  rewrite IH.
  - rewrite <- fmap_S_seq, <- list_fmap_compose.
    apply list_fmap_ext. intros _ i _. simpl. f_equal. lia.
  - apply lookup_insert_eq.
  - f_equal. lia.
  - intros i w' Hi. destruct (Hdays (S i) w' Hi) as (? & ? & ?).
    repeat split; [done|done|lia].
Qed.

(** A user without a stored streak who reviews once on each of [n]
    consecutive days is answered 1, 2, ..., [n]. *)
Theorem streak_counts_consecutive_days (ws : list world) (st : store)
    (u : user) (d : date) :
  user_streaks st !! id u = None →
  (∀ i w, ws !! i = Some w →
          select_ok w = true ∧ upsert_ok w = true
          ∧ isoDate (now w) = d + Z.of_nat i) →
  (streak_updates ws st u).1
  = (λ i, Json (Z.of_nat i + 1)) <$> seq 0 (length ws).
Proof.
  intros Hnone Hdays. destruct ws as [|w ws]; [done|].
  destruct (Hdays 0%nat w eq_refl) as (Hsel & Hup & Hday).
  rewrite Z.add_0_r in Hday. simpl.
  unfold Streak.update at 1. rewrite Hsel, Hnone, Hup. simpl.
  set (st1 := with_streaks st _).
  pose proof (streak_updates_from_row u ws st1 (d + 1)
    {| UserStreaks.daily_streak := 1;
       UserStreaks.last_review_date := Some (isoDate (now w));
       UserStreaks.updated_at := now w |}) as Hrest.
  destruct (streak_updates ws st1 u) as [rs st2]. simpl in *.
  f_equal. rewrite Hrest.
  - rewrite <- fmap_S_seq, <- list_fmap_compose.
    apply list_fmap_ext. intros _ i _. simpl. f_equal. lia.
  - apply lookup_insert_eq.
  - f_equal. lia.
  - intros i w' Hi. destruct (Hdays (S i) w' Hi) as (? & ? & ?).
    repeat split; [done|done|lia].
Qed.

Lemma streak_counts_consecutive_days_witness :
  (streak_updates [Sample.day 0; Sample.day 1; Sample.day 2]
     Sample.empty Sample.u).1
  = [Json 1; Json 2; Json 3].
Proof.
  apply (streak_counts_consecutive_days
           [Sample.day 0; Sample.day 1; Sample.day 2] Sample.empty Sample.u 19728);
    [reflexivity|].
  intros [|[|[|i]]] w Hw; try discriminate Hw;
    injection Hw as <-; repeat split; reflexivity.
Defined.

(** Every row of [user_streaks] that the update leaves has a streak of
    at least 1 and a date, when the rows it found had. *)
Theorem streak_rows_stay_positive (w : world) (st st' : store) (u : user)
    (r : response Z) :
  (∀ uid row, user_streaks st !! uid = Some row →
              1 ≤ UserStreaks.daily_streak row
              ∧ is_Some (UserStreaks.last_review_date row)) →
  Streak.update w st u = (r, st') →
  ∀ uid row, user_streaks st' !! uid = Some row →
             1 ≤ UserStreaks.daily_streak row
             ∧ is_Some (UserStreaks.last_review_date row).
Proof.
  intros Hinv Hupd uid row Hrow. unfold Streak.update in Hupd.
  destruct (Streak.newStreak _ _ _) as [s|n] eqn:Hnew.
  { injection Hupd as _ <-. by apply (Hinv uid). }
  destruct (upsert_ok w); [|injection Hupd as _ <-; by apply (Hinv uid)].
  injection Hupd as _ <-. simpl in Hrow.
  destruct (decide (id u = uid)) as [<-|Hne];
    [|rewrite lookup_insert_ne in Hrow by done; by apply (Hinv uid)].
  rewrite lookup_insert_eq in Hrow. injection Hrow as <-. simpl.
  split; [|by eexists].
  unfold Streak.newStreak in Hnew.
  destruct (if select_ok w then _ else _) as [cs|] eqn:Hcs;
    [|injection Hnew as <-; lia].
  destruct (select_ok w); [|done].
  destruct (date_is _ (isoDate (now w))); [done|].
  destruct (date_is _ _); injection Hnew as <-; [|lia].
  destruct (Hinv _ _ Hcs). lia.
Qed.

Lemma streak_rows_stay_positive_witness :
  ∃ row,
    user_streaks (Streak.update Sample.w (Sample.streaks 3 19727) Sample.u).2
      !! "u1" = Some row
    ∧ 1 ≤ UserStreaks.daily_streak row
    ∧ is_Some (UserStreaks.last_review_date row).
Proof.
  eexists. split; [reflexivity|].
  eapply (streak_rows_stay_positive Sample.w (Sample.streaks 3 19727) _ Sample.u)
    with (uid := "u1"); [|reflexivity|reflexivity].
  intros uid row Hrow. unfold Sample.streaks in Hrow. simpl in Hrow.
  apply lookup_singleton_Some in Hrow as [_ <-]. simpl.
  split; [lia|by eexists].
Defined.

(** ** What the writes leave alone *)

Lemma others_untouched_refl u st : others_untouched u st st.
Proof. by intros uid Hne. Qed.

Lemma others_untouched_streaks u st r :
  others_untouched u st (with_streaks st (<[id u := r]> (user_streaks st))).
Proof.
  intros uid Hne. simpl. split; [|done]. by apply lookup_insert_ne.
Qed.

Lemma others_untouched_settings u st r :
  others_untouched u st (with_settings st (<[id u := r]> (user_settings st))).
Proof.
  intros uid Hne. simpl. split; [done|]. split; [|done].
  by apply lookup_insert_ne.
Qed.

Section Writes.

Variable parseInt : value → value.
Variable toISOString : Z → string.
Variable item_key : value → option Z.

Lemma others_untouched_upsert_all u st rs t :
  Db.upsert_all item_key (id u) rs (user_kanji_progress st) = Some t →
  others_untouched u st (with_progress st t).
Proof.
  intros Ht uid Hne. simpl. split; [done|]. split; [done|]. intros k.
  apply (upsert_all_other item_key (id u) rs _ _ _ Ht).
  intros r k' _ _ [= Huid _]. by apply Hne.
Qed.

(** No handler changes a row of a user other than the caller, in any of
    the three tables, whatever the request and whatever it answers. *)
Theorem writes_touch_own_rows_only (w : world) (st : store) (u : user)
    (body : value) :
  others_untouched u st (Streak.update w st u).2
  ∧ others_untouched u st (Settings.put toISOString w st u body).2
  ∧ others_untouched u st (Language.put toISOString w st u body).2
  ∧ others_untouched u st (Progress.update toISOString item_key w st u body).2
  ∧ others_untouched u st
      (Progress.bulk_update parseInt toISOString item_key w st u body).2.
Proof.
  split; [|split; [|split; [|split]]].
  - unfold Streak.update. destruct (Streak.newStreak _ _ _);
      [apply others_untouched_refl|].
    destruct (upsert_ok w);
      [apply others_untouched_streaks|apply others_untouched_refl].
  - unfold Settings.put. destruct (Settings.destructure body);
      [|apply others_untouched_refl].
    destruct (_ && _); [apply others_untouched_refl|].
    destruct (upsert_ok w);
      [apply others_untouched_settings|apply others_untouched_refl].
  - unfold Language.put. destruct (Js.get "language" body);
      [|apply others_untouched_refl].
    destruct (_ || _); [apply others_untouched_refl|].
    destruct (upsert_ok w);
      [apply others_untouched_settings|apply others_untouched_refl].
  - unfold Progress.update.
    destruct (Progress.progressData _ _ _) as [r|];
      [|apply others_untouched_refl].
    destruct (upsert_ok w); [|apply others_untouched_refl].
    destruct (Db.upsert_progress _ _ _ _) as [t|] eqn:Ht;
      [|apply others_untouched_refl].
    apply (others_untouched_upsert_all u st [r] t). simpl. by rewrite Ht.
  - unfold Progress.bulk_update.
    destruct (Js.get _ body); [|apply others_untouched_refl].
    destruct (_ || _); [apply others_untouched_refl|].
    destruct (mapM _ _) as [rs|]; [|apply others_untouched_refl].
    destruct (upsert_ok w); [|apply others_untouched_refl].
    destruct (Db.upsert_all _ _ _ _) as [t|] eqn:Ht;
      [|apply others_untouched_refl].
    by apply (others_untouched_upsert_all u st rs t).
Qed.

(** A handler that answers with an error has written nothing. *)
Theorem errors_write_nothing (w : world) (st st' : store) (u : user)
    (body : value) (code : Z) (error : string) :
  (Streak.update w st u = (Fail code error, st') → st' = st)
  ∧ (Settings.put toISOString w st u body = (Fail code error, st') → st' = st)
  ∧ (Language.put toISOString w st u body = (Fail code error, st') → st' = st)
  ∧ (Progress.update toISOString item_key w st u body = (Fail code error, st') →
     st' = st)
  ∧ (Progress.bulk_update parseInt toISOString item_key w st u body
     = (Fail code error, st') → st' = st).
Proof.
  split; [|split; [|split; [|split]]].
  - unfold Streak.update. destruct (Streak.newStreak _ _ _); [discriminate|].
    destruct (upsert_ok w); [discriminate|]. by intros [= _ _ <-].
  - unfold Settings.put. destruct (Settings.destructure body);
      [|by intros [= _ _ <-]].
    destruct (_ && _); [by intros [= _ _ <-]|].
    destruct (upsert_ok w); [discriminate|]. by intros [= _ _ <-].
  - unfold Language.put. destruct (Js.get "language" body);
      [|by intros [= _ _ <-]].
    destruct (_ || _); [by intros [= _ _ <-]|].
    destruct (upsert_ok w); [discriminate|]. by intros [= _ _ <-].
  - unfold Progress.update.
    destruct (Progress.progressData _ _ _) as [r|]; [|by intros [= _ _ <-]].
    destruct (if upsert_ok w then _ else _); [discriminate|].
    by intros [= _ _ <-].
  - unfold Progress.bulk_update.
    destruct (Js.get _ body); [|by intros [= _ _ <-]].
    destruct (_ || _); [by intros [= _ _ <-]|].
    destruct (mapM _ _) as [rs|]; [|by intros [= _ _ <-]].
    destruct (if upsert_ok w then _ else _); [discriminate|].
    by intros [= _ _ <-].
Qed.

End Writes.

(** ** The bulk update, entry by entry *)

Section Bulk.

Variable parseInt : value → value.
Variable toISOString : Z → string.
Variable item_key : value → option Z.

(** An entry cannot be turned into a record exactly when it is not
    iterable or its progress data is [undefined] or [null]. *)
Lemma progressRecord_None w entry :
  Progress.progressRecord parseInt toISOString w entry = None
  ↔ destructure2 entry = None
    ∨ ∃ kanjiId pd, destructure2 entry = Some (kanjiId, pd)
                    ∧ (pd = VUndefined ∨ pd = VNull).
Proof.
  unfold Progress.progressRecord.
  destruct (destructure2 entry) as [[kanjiId pd]|]; simpl; [|by split; [left|]].
  split.
  - intros H. right. exists kanjiId, pd. split; [done|].
    destruct pd; simpl in H; try discriminate H; [by left|by right].
  - intros [H|(? & ? & [= <- <-] & [->| ->])]; [discriminate H|done|done].
Qed.

Lemma progressRecord_fields w entry kanjiId pd kid r :
  destructure2 entry = Some (kanjiId, pd) →
  Progress.progressRecord parseInt toISOString w entry = Some (kid, r) →
  updated_at r = VStr (toISOString (now w))
  ∧ ∀ name col dflt, (name, col, dflt) ∈ Fields.bulk →
      ∃ v, Js.get name pd = Some v ∧ col r = or_else v dflt.
Proof.
  unfold Progress.progressRecord. intros -> H. simpl in H.
  assert (Hget : ∀ name, ∃ v, Js.get name pd = Some v).
  { intros name. destruct pd; simpl in *; try discriminate H; by eexists. }
  destruct (Hget "learned") as [v1 H1], (Hget "inReview") as [v2 H2],
    (Hget "interval") as [v3 H3], (Hget "ease") as [v4 H4],
    (Hget "consecutiveCorrect") as [v5 H5], (Hget "totalReviews") as [v6 H6],
    (Hget "correctReviews") as [v7 H7], (Hget "lastReview") as [v8 H8],
    (Hget "nextReview") as [v9 H9], (Hget "mnemonic") as [v10 H10].
  rewrite H1, H2, H3, H4, H5, H6, H7, H8, H9, H10 in H. simpl in H.
  injection H as <- <-. split; [done|].
  intros name col dflt Hin. unfold Fields.bulk in Hin.
  repeat (apply elem_of_cons in Hin as [[= -> -> ->]|Hin]; [by eexists|]).
  by apply elem_of_nil in Hin.
Qed.

Lemma upsert_all_refused uid rs : ∀ t r,
  r ∈ rs → item_key r.1 = None → Db.upsert_all item_key uid rs t = None.
Proof.
  induction rs as [|r0 rs IH]; intros t r Hin Hkey;
    [by apply elem_of_nil in Hin|].
  simpl. apply elem_of_cons in Hin as [->|Hin].
  - unfold Db.upsert_progress. by rewrite Hkey.
  - destruct (Db.upsert_progress item_key uid r0 t); [|done]. simpl.
    by apply (IH _ r).
Qed.

(** Whether the store accepts the rows does not depend on the table. *)
Lemma upsert_all_accepts uid rs : ∀ t t',
  Db.upsert_all item_key uid rs t = Some t' →
  ∀ t2, is_Some (Db.upsert_all item_key uid rs t2).
Proof.
  induction rs as [|r rs IH]; intros t t' H t2; [by eexists|].
  simpl in *.
  destruct (Db.upsert_progress item_key uid r t) as [t1|] eqn:H1; [|done].
  apply upsert_progress_Some in H1 as (k & Hk & _).
  unfold Db.upsert_progress at 1. rewrite Hk. simpl. by eapply IH.
Qed.

(** Two runs of the same rows agree on every key, or both leave it. *)
Lemma upsert_all_agree uid rs : ∀ t1 t1' t2 t2' key,
  Forall (λ r, Progress.all_sent r.2) rs →
  Db.upsert_all item_key uid rs t1 = Some t1' →
  Db.upsert_all item_key uid rs t2 = Some t2' →
  t1' !! key = t2' !! key
  ∨ (t1' !! key = t1 !! key ∧ t2' !! key = t2 !! key).
Proof.
  induction rs as [|r rs IH]; intros t1 t1' t2 t2' key Hsent H1 H2; simpl in *.
  - injection H1 as <-. injection H2 as <-. by right.
  - apply Forall_cons in Hsent as [Hr Hsent].
    destruct (Db.upsert_progress item_key uid r t1) as [t1a|] eqn:E1; [|done].
    destruct (Db.upsert_progress item_key uid r t2) as [t2a|] eqn:E2; [|done].
    simpl in *.
    apply upsert_progress_Some in E1 as (k & Hk & ->).
    apply upsert_progress_Some in E2 as (k2 & Hk2 & ->).
    assert (k2 = k) as -> by congruence.
    rewrite !(merge_progress_all_sent _ _ Hr) in *.
    destruct (IH _ _ _ _ key Hsent H1 H2) as [Heq|[Ha Hb]]; [by left|].
    destruct (decide ((uid, k) = key)) as [<-|Hne].
    + left. by rewrite Ha, Hb, !lookup_insert_eq.
    + right. by rewrite Ha, Hb, !lookup_insert_ne.
Qed.

(** One entry that is not iterable, or has no progress data, or whose
    item the store refuses, fails the whole batch: the answer is 500 and
    nothing is written, whatever the other entries are. *)
Theorem bulk_is_all_or_nothing (w : world) (st : store) (u : user)
    (body : value) (items : list value) (entry : value) :
  Js.get "kanjiProgressData" body = Some (VArr items) →
  entry ∈ items →
  destructure2 entry = None
  ∨ (∃ kanjiId pd, destructure2 entry = Some (kanjiId, pd)
                   ∧ (pd = VUndefined ∨ pd = VNull))
  ∨ (∃ kanjiId pd, destructure2 entry = Some (kanjiId, pd)
                   ∧ item_key (parseInt kanjiId) = None) →
  Progress.bulk_update parseInt toISOString item_key w st u body
  = (Fail 500 "Failed to update progress", st).
Proof.
  intros Hget Hin Hbad. unfold Progress.bulk_update. rewrite Hget. simpl.
  destruct (mapM _ items) as [rs|] eqn:Hrs; [|done].
  destruct (upsert_ok w); [|done].
  apply mapM_Some in Hrs.
  apply list_elem_of_lookup in Hin as [i Hi].
  destruct (Forall2_lookup_l _ _ _ _ _ Hrs Hi) as ([kid r] & Hr & Hrec).
  destruct Hbad as [Hbad|[Hbad|(kanjiId & pd & Hd & Hkey)]].
  - assert (Progress.progressRecord parseInt toISOString w entry = None)
      by (apply progressRecord_None; by left). congruence.
  - assert (Progress.progressRecord parseInt toISOString w entry = None)
      by (apply progressRecord_None; by right). congruence.
  - destruct (progressRecord_inv _ _ _ _ _ _ Hrec)
      as (kanjiId' & pd' & _ & _ & Hd' & -> & _).
    assert (kanjiId' = kanjiId) as -> by congruence.
    rewrite (upsert_all_refused (id u) rs _ (parseInt kanjiId, r)); [done| |done].
    by eapply list_elem_of_lookup_2.
Qed.

(** A bulk update that succeeds leaves the row of every item that no
    entry of the batch is stored under as it was, and leaves the streaks
    and the settings as they were. *)
Theorem bulk_leaves_other_items (w : world) (st st' : store) (u : user)
    (body : value) (n : nat) (items : list value) (k : Z) :
  Progress.bulk_update parseInt toISOString item_key w st u body = (Json n, st') →
  Js.get "kanjiProgressData" body = Some (VArr items) →
  (∀ entry kanjiId pd, entry ∈ items →
     destructure2 entry = Some (kanjiId, pd) →
     item_key (parseInt kanjiId) ≠ Some k) →
  user_kanji_progress st' !! (id u, k) = user_kanji_progress st !! (id u, k)
  ∧ user_streaks st' = user_streaks st
  ∧ user_settings st' = user_settings st.
Proof.
  intros Hbulk Hget Hother.
  apply bulk_update_Json in Hbulk as (items' & rs & t & Hget' & Hrs & Ht & _ & ->).
  assert (items' = items) as -> by congruence.
  split; [|done]. simpl.
  apply (upsert_all_other item_key (id u) rs _ _ _ Ht).
  intros [kid r] k' Hin Hk' [= ->].
  apply mapM_Some in Hrs.
  apply list_elem_of_lookup in Hin as [i Hi].
  destruct (Forall2_lookup_r _ _ _ _ _ Hrs Hi) as (entry & Hentry & Hrec).
  destruct (progressRecord_inv _ _ _ _ _ _ Hrec)
    as (kanjiId & pd & _ & _ & Hd & -> & _).
  apply (Hother entry kanjiId pd); [by eapply list_elem_of_lookup_2|done|done].
Qed.

(** Sending a batch again, at the same instant, to the store it has been
    applied to gives the same answer and changes nothing. *)
Theorem bulk_retry_changes_nothing (w : world) (st st' : store) (u : user)
    (body : value) (n : nat) :
  Progress.bulk_update parseInt toISOString item_key w st u body = (Json n, st') →
  Progress.bulk_update parseInt toISOString item_key w st' u body = (Json n, st').
Proof.
  intros Hbulk. pose proof Hbulk as Hrun.
  apply bulk_update_Json in Hrun as (items & rs & t & Hget & Hrs & Ht & -> & ->).
  assert (Hup : upsert_ok w = true).
  { unfold Progress.bulk_update in Hbulk. rewrite Hget in Hbulk. simpl in Hbulk.
    rewrite Hrs in Hbulk. by destruct (upsert_ok w). }
  destruct (upsert_all_accepts (id u) rs _ _ Ht t) as [t2 Ht2].
  assert (Hsent : Forall (λ r, Progress.all_sent r.2) rs).
  { apply mapM_Some in Hrs. apply Forall_forall. intros [kid r] Hin.
    apply list_elem_of_lookup in Hin as [i Hi].
    destruct (Forall2_lookup_r _ _ _ _ _ Hrs Hi) as (entry & _ & Hrec).
    by destruct (progressRecord_inv _ _ _ _ _ _ Hrec) as (?&?&?&?&?&?&?&?&?&?). }
  assert (t2 = t) as ->.
  { apply map_eq. intros key.
    destruct (upsert_all_agree (id u) rs _ _ _ _ key Hsent Ht2 Ht)
      as [H|[H _]]; done. }
  rewrite (bulk_update_run parseInt toISOString item_key w (with_progress st t)
             u body items rs t Hget Hrs Hup Ht2).
  by destruct st.
Qed.

(** After a bulk update that succeeded, the row of an item holds, for its
    last entry in the batch, each field as the entry has it when that is
    truthy and the default of the field otherwise, and the time of the
    server in [updated_at]. *)
Theorem bulk_stores_fields_or_defaults (w : world) (st st' : store) (u : user)
    (body : value) (n : nat) (items : list value) (i : nat)
    (entry kanjiId pd : value) (k : Z) :
  Progress.bulk_update parseInt toISOString item_key w st u body = (Json n, st') →
  Js.get "kanjiProgressData" body = Some (VArr items) →
  items !! i = Some entry →
  destructure2 entry = Some (kanjiId, pd) →
  item_key (parseInt kanjiId) = Some k →
  (∀ j entry' kanjiId' pd', (i < j)%nat → items !! j = Some entry' →
     destructure2 entry' = Some (kanjiId', pd') →
     item_key (parseInt kanjiId') ≠ Some k) →
  ∃ r, user_kanji_progress st' !! (id u, k) = Some r
    ∧ updated_at r = VStr (toISOString (now w))
    ∧ ∀ name col dflt, (name, col, dflt) ∈ Fields.bulk →
        ∃ v, Js.get name pd = Some v
             ∧ (truthy v = true → col r = v)
             ∧ (truthy v = false → col r = dflt).
Proof.
  intros Hbulk Hget Hi Hd Hk Hlast.
  apply bulk_update_Json in Hbulk as (items' & rs & t & Hget' & Hrs & Ht & _ & ->).
  assert (items' = items) as -> by congruence.
  apply mapM_Some in Hrs.
  destruct (Forall2_lookup_l _ _ _ _ _ Hrs Hi) as ([kid r] & Hr & Hrec).
  destruct (progressRecord_inv _ _ _ _ _ _ Hrec)
    as (kanjiId0 & pd0 & _ & _ & Hd0 & -> & _ & _ & _ & Hsent).
  assert (kanjiId0 = kanjiId) as -> by congruence.
  destruct (progressRecord_fields _ _ _ _ _ _ Hd Hrec) as [Hstamp Hfields].
  exists r. split; [|split; [done|]].
  - simpl.
    apply (upsert_all_last item_key (id u) rs _ _ i (parseInt kanjiId, r) k
             Ht Hr Hk); [|done].
    intros j [kid' r'] Hij Hj.
    destruct (Forall2_lookup_r _ _ _ _ _ Hrs Hj) as (entry' & Hentry' & Hrec').
    destruct (progressRecord_inv _ _ _ _ _ _ Hrec')
      as (kanjiId' & pd' & _ & _ & Hd' & -> & _).
    by apply (Hlast j entry' kanjiId' pd').
  - intros name col dflt Hin.
    destruct (Hfields name col dflt Hin) as (v & Hv & Hcol).
    exists v. split; [done|]. rewrite Hcol.
    split; intros Ht'; [by apply or_else_truthy|by apply or_else_falsy].
Qed.

End Bulk.

Lemma bulk_is_all_or_nothing_witness :
  Progress.bulk_update Sample.parseInt Sample.toISOString Sample.item_key
    Sample.w Sample.empty Sample.u Sample.body_batch_malformed
  = (Fail 500 "Failed to update progress", Sample.empty).
Proof.
  eapply (bulk_is_all_or_nothing Sample.parseInt Sample.toISOString
            Sample.item_key Sample.w Sample.empty Sample.u
            Sample.body_batch_malformed _ (VArr [VStr "8"]));
    [reflexivity| |].
  - right. left.
  - right. left. exists (VStr "8"), VUndefined. split; [reflexivity|by left].
Defined.

(** The batch for the items 7 and 8 leaves the row of item 1. *)
Lemma bulk_leaves_other_items_witness :
  ∃ st st',
    st = (Progress.update Sample.toISOString Sample.item_key Sample.w
            Sample.empty Sample.u Sample.body_counts_ok).2
    ∧ Progress.bulk_update Sample.parseInt Sample.toISOString Sample.item_key
        Sample.w st Sample.u Sample.body_batch
      = (Json 3%nat, st')
    ∧ is_Some (user_kanji_progress st !! ("u1", 1))
    ∧ user_kanji_progress st' !! ("u1", 1) = user_kanji_progress st !! ("u1", 1).
Proof.
  eexists _, _. split; [reflexivity|]. split; [reflexivity|].
  split; [by eexists|].
  eapply (bulk_leaves_other_items Sample.parseInt Sample.toISOString
            Sample.item_key Sample.w _ _ Sample.u Sample.body_batch 3%nat
            Sample.batch 1); [reflexivity|reflexivity|].
  intros entry kanjiId pd Hin Hd.
  unfold Sample.batch in Hin.
  repeat (apply elem_of_cons in Hin as [->|Hin];
          [injection Hd as <- _; vm_compute; discriminate|]).
  by apply elem_of_nil in Hin.
Defined.

Lemma bulk_retry_changes_nothing_witness :
  ∃ st', Progress.bulk_update Sample.parseInt Sample.toISOString Sample.item_key
           Sample.w Sample.empty Sample.u Sample.body_batch
         = (Json 3%nat, st')
      ∧ Progress.bulk_update Sample.parseInt Sample.toISOString Sample.item_key
          Sample.w st' Sample.u Sample.body_batch
        = (Json 3%nat, st').
Proof.
  eexists. split; [reflexivity|].
  apply (bulk_retry_changes_nothing Sample.parseInt Sample.toISOString
           Sample.item_key Sample.w Sample.empty). reflexivity.
Defined.

(** An interval of 0 is stored as 1, and what the entry does not have is
    stored as its default. *)
Lemma bulk_stores_fields_or_defaults_witness :
  ∃ st' r,
    Progress.bulk_update Sample.parseInt Sample.toISOString Sample.item_key
      Sample.w Sample.empty Sample.u Sample.body_batch_zero
    = (Json 1%nat, st')
    ∧ user_kanji_progress st' !! ("u1", 7) = Some r
    ∧ srs_interval r = VNum 1
    ∧ ease_factor r = VNum (5 # 2)
    ∧ learned r = VBool true.
Proof.
  destruct (bulk_stores_fields_or_defaults Sample.parseInt Sample.toISOString
              Sample.item_key Sample.w Sample.empty _ Sample.u
              Sample.body_batch_zero 1%nat _ 0%nat _ _ _ 7
              eq_refl eq_refl eq_refl eq_refl eq_refl)
    as (r & Hr & _ & Hfields).
  { intros [|j] ? ? ? Hj Hentry; [lia|discriminate Hentry]. }
  eexists _, r. split; [reflexivity|]. split; [exact Hr|].
  split; [|split].
  - destruct (Hfields "interval" srs_interval (VNum 1)) as (v & Hv & _ & Hf);
      [unfold Fields.bulk; repeat constructor|].
    injection Hv as <-. by apply Hf.
  - destruct (Hfields "ease" ease_factor (VNum (5 # 2))) as (v & Hv & _ & Hf);
      [unfold Fields.bulk; repeat constructor|].
    injection Hv as <-. by apply Hf.
  - destruct (Hfields "learned" learned (VBool false)) as (v & Hv & Ht & _);
      [unfold Fields.bulk; repeat constructor|].
    injection Hv as <-. by apply Ht.
Defined.

(** ** The single update and the listing *)

Section Listing.

Variable toISOString : Z → string.
Variable item_key : value → option Z.

Lemma progressData_fields w body kid r :
  Progress.progressData toISOString w body = Some (kid, r) →
  Js.get "kanji_id" body = Some kid
  ∧ last_review r = VStr (toISOString (now w))
  ∧ updated_at r = VUndefined
  ∧ ∀ name col dflt, (name, col, dflt) ∈ Fields.single →
      ∃ v, Js.get name body = Some v ∧ col r = or_else v dflt
           ∧ col r ≠ VUndefined.
Proof.
  unfold Progress.progressData. intros H.
  assert (Hget : ∀ name, ∃ v, Js.get name body = Some v).
  { intros name. destruct body; simpl in *; try discriminate H; by eexists. }
  destruct (Hget "kanji_id") as [v0 H0],
    (Hget "learned") as [v1 H1], (Hget "in_review") as [v2 H2],
    (Hget "srs_interval") as [v3 H3], (Hget "ease_factor") as [v4 H4],
    (Hget "consecutive_correct") as [v5 H5], (Hget "total_reviews") as [v6 H6],
    (Hget "correct_reviews") as [v7 H7], (Hget "next_review") as [v9 H9],
    (Hget "mnemonic") as [v10 H10].
  rewrite H0, H1, H2, H3, H4, H5, H6, H7, H9, H10 in H. simpl in H.
  injection H as <- <-. do 3 (split; [done|]).
  intros name col dflt Hin. unfold Fields.single in Hin.
  repeat (apply elem_of_cons in Hin as [[= -> -> ->]|Hin];
          [eexists; split; [done|]; split; [done|]; by apply or_else_defined|]).
  by apply elem_of_nil in Hin.
Qed.

Lemma update_Json w st u body st' :
  Progress.update toISOString item_key w st u body = (Json (), st') →
  ∃ kid r k, Progress.progressData toISOString w body = Some (kid, r)
    ∧ item_key kid = Some k
    ∧ st' = with_progress st
              (<[(id u, k) := Db.merge_progress r
                                (user_kanji_progress st !! (id u, k))]>
                 (user_kanji_progress st)).
Proof.
  unfold Progress.update. intros H.
  destruct (Progress.progressData _ _ _) as [[kid r]|]; [|discriminate H].
  destruct (upsert_ok w); [|discriminate H].
  destruct (Db.upsert_progress _ _ _ _) as [t|] eqn:Ht; [|discriminate H].
  apply upsert_progress_Some in Ht as (k & Hk & ->).
  injection H as <-. by exists kid, r, k.
Qed.

(** POST /api/progress/update, when it succeeds, stores each field of the
    body as it is sent when that is truthy and the default of the field
    otherwise; [last_review] is the time of the server, whatever the body
    has, and [updated_at] stays what it was. *)
Theorem update_stores_fields_or_defaults (w : world) (st st' : store) (u : user)
    (body : value) :
  Progress.update toISOString item_key w st u body = (Json (), st') →
  ∃ kid k r,
    Js.get "kanji_id" body = Some kid
    ∧ item_key kid = Some k
    ∧ user_kanji_progress st' !! (id u, k) = Some r
    ∧ last_review r = VStr (toISOString (now w))
    ∧ updated_at r
      = from_option updated_at VNull (user_kanji_progress st !! (id u, k))
    ∧ ∀ name col dflt, (name, col, dflt) ∈ Fields.single →
        ∃ v, Js.get name body = Some v
             ∧ (truthy v = true → col r = v)
             ∧ (truthy v = false → col r = dflt).
Proof.
  intros H. apply update_Json in H as (kid & r & k & Hdata & Hk & ->).
  destruct (progressData_fields _ _ _ _ Hdata) as (Hkid & Hlast & Hstamp & Hfields).
  exists kid, k, (Db.merge_progress r (user_kanji_progress st !! (id u, k))).
  split; [done|]. split; [done|]. split; [apply lookup_insert_eq|].
  split; [by simpl; rewrite Hlast|]. split; [by simpl; rewrite Hstamp|].
  intros name col dflt Hin.
  destruct (Hfields name col dflt Hin) as (v & Hv & Hcol & Hdef).
  exists v. split; [done|].
  assert (Hm : col (Db.merge_progress r (user_kanji_progress st !! (id u, k)))
               = col r).
  { unfold Fields.single in Hin.
    repeat (apply elem_of_cons in Hin as [[= -> -> ->]|Hin];
            [simpl; by apply merge_col_defined|]).
    by apply elem_of_nil in Hin. }
  rewrite Hm, Hcol.
  split; intros Ht; [by apply or_else_truthy|by apply or_else_falsy].
Qed.

(** GET /api/progress answers with rows of the caller only; after an
    update that succeeded it holds the row of the item as the store has
    it, and what every other user is answered is what it was before. *)
Theorem listing_after_update (w w' : world) (st st' : store) (u : user)
    (body : value) :
  Progress.update toISOString item_key w st u body = (Json (), st') →
  select_ok w' = true →
  ∃ m kid k r,
    Queries.get_progress w' st' u = Json m
    ∧ (∀ key row, m !! key = Some row → key.1 = id u)
    ∧ Js.get "kanji_id" body = Some kid
    ∧ item_key kid = Some k
    ∧ user_kanji_progress st' !! (id u, k) = Some r
    ∧ m !! (id u, k) = Some r
    ∧ ∀ u', id u' ≠ id u →
        Queries.get_progress w' st' u' = Queries.get_progress w' st u'.
Proof.
  intros H Hsel. pose proof H as Hinv.
  apply update_Json in Hinv as (kid & r & k & Hdata & Hk & ->).
  destruct (progressData_fields _ _ _ _ Hdata) as (Hkid & _).
  unfold Queries.get_progress. rewrite Hsel.
  eexists _, kid, k, _. split; [done|].
  split.
  { intros key row Hrow. by apply map_lookup_filter_Some in Hrow as [_ ?]. }
  split; [done|]. split; [done|].
  split; [apply lookup_insert_eq|].
  split.
  { apply map_lookup_filter_Some. split; [apply lookup_insert_eq|done]. }
  intros u' Hne. f_equal. apply map_eq. intros [uid k'].
  rewrite !map_lookup_filter. simpl.
  destruct (decide (uid = id u)) as [->|Huid].
  - destruct (_ !! (id u, k')), (_ !! (id u, k')); simpl;
      rewrite ?option_guard_False by (simpl; congruence); done.
  - rewrite lookup_insert_ne; [done|]. intros [= ? _]. by apply Huid.
Qed.

End Listing.

(** A first update of an item: [updated_at] is [null], [last_review] is
    the time of the server. *)
Lemma update_stores_fields_or_defaults_witness :
  ∃ st' r,
    Progress.update Sample.toISOString Sample.item_key Sample.w Sample.empty
      Sample.u Sample.body_counts_ok
    = (Json (), st')
    ∧ user_kanji_progress st' !! ("u1", 1) = Some r
    ∧ last_review r = VStr "2024-01-06T12:00:00.000Z"
    ∧ updated_at r = VNull
    ∧ srs_interval r = VNum 1
    ∧ total_reviews r = VNum 3.
Proof.
  destruct (update_stores_fields_or_defaults Sample.toISOString Sample.item_key
              Sample.w Sample.empty _ Sample.u Sample.body_counts_ok eq_refl)
    as (kid & k & r & Hkid & Hk & Hr & Hlast & Hstamp & Hfields).
  injection Hkid as <-. injection Hk as <-.
  eexists _, r. split; [reflexivity|]. split; [exact Hr|].
  split; [exact Hlast|]. split; [exact Hstamp|]. split.
  - destruct (Hfields "srs_interval" srs_interval (VNum 1)) as (v & Hv & _ & Hf);
      [unfold Fields.single; repeat constructor|].
    injection Hv as <-. by apply Hf.
  - destruct (Hfields "total_reviews" total_reviews (VNum 0)) as (v & Hv & Ht & _);
      [unfold Fields.single; repeat constructor|].
    injection Hv as <-. by apply Ht.
Defined.

Lemma listing_after_update_witness :
  ∃ st' m r,
    Progress.update Sample.toISOString Sample.item_key Sample.w Sample.empty
      Sample.u Sample.body_counts_ok
    = (Json (), st')
    ∧ Queries.get_progress Sample.w st' Sample.u = Json m
    ∧ m !! ("u1", 1) = Some r
    ∧ total_reviews r = VNum 3
    ∧ Queries.get_progress Sample.w st' Sample.other = Json ∅.
Proof.
  destruct (listing_after_update Sample.toISOString Sample.item_key Sample.w
              Sample.w Sample.empty _ Sample.u Sample.body_counts_ok
              eq_refl eq_refl)
    as (m & kid & k & r & Hm & _ & Hkid & Hk & Hr & Hmr & Hother).
  injection Hkid as <-. injection Hk as <-.
  eexists _, m, r. split; [reflexivity|]. split; [exact Hm|].
  split; [exact Hmr|]. split.
  - simpl in Hr. rewrite lookup_insert_eq in Hr. by injection Hr as <-.
  - rewrite (Hother Sample.other); [reflexivity|discriminate].
Defined.

(** ** The settings, saved and read back *)

Lemma includes_en_ja l :
  includes ["en"; "ja"] l = true ↔ l = VStr "en" ∨ l = VStr "ja".
Proof.
  destruct l; simpl; try (split; [discriminate|intros [|]; discriminate]).
  rewrite orb_false_r, orb_true_iff, !String.eqb_eq.
  split; (intros [H|H]; [left|right]); congruence.
Qed.

Lemma truthy_or_else a d : truthy d = true → truthy (or_else a d) = true.
Proof. intros Hd. unfold or_else. by destruct (truthy a) eqn:Ha. Qed.

(** GET /api/settings fills every field: the fields resolved with [||]
    and the language are truthy whatever is stored, and a toggle is
    neither [null] nor [undefined] as long as its column is there. *)
Theorem settings_resolved_complete (u : user) (data : option UserSettings.row) :
  (∀ field col, (field, col) ∈ Fields.defaulted →
     truthy (field (Settings.resolve u data)) = true)
  ∧ truthy (Settings.language (Settings.resolve u data)) = true
  ∧ (∀ field col, (field, col) ∈ Fields.toggles →
       (∀ row, data = Some row → col row ≠ VUndefined) →
       field (Settings.resolve u data) ≠ VNull
       ∧ field (Settings.resolve u data) ≠ VUndefined).
Proof.
  split; [|split].
  - intros field col Hin. unfold Fields.defaulted in Hin.
    repeat (apply elem_of_cons in Hin as [[= -> ->]|Hin];
            [destruct data; simpl; repeat apply truthy_or_else; done|]).
    by apply elem_of_nil in Hin.
  - destruct data; simpl; [by apply truthy_or_else|done].
  - intros field col Hin Hcol. unfold Fields.toggles in Hin.
    repeat (apply elem_of_cons in Hin as [[= -> ->]|Hin];
            [destruct data as [row|]; simpl; [|done];
             specialize (Hcol row eq_refl); simpl in Hcol;
             by destruct (_ row)|]).
    by apply elem_of_nil in Hin.
Qed.

Section SaveAndRead.

Variable toISOString : Z → string.

Lemma put_Json w st u body st' :
  Settings.put toISOString w st u body = (Json (), st') →
  ∃ b, Settings.destructure body = Some b
    ∧ Settings.language_accepted (Settings.language b) = true
    ∧ st' = with_settings st
              (<[id u := Db.merge_settings (Settings.settingsData toISOString w b)
                           (user_settings st !! id u)]> (user_settings st)).
Proof.
  unfold Settings.put, Settings.language_accepted. intros H.
  destruct (Settings.destructure body) as [b|]; [|discriminate H].
  destruct (truthy (Settings.language b)) eqn:Ht; simpl in *.
  - destruct (includes _ _) eqn:Hi; simpl in H; [|discriminate H].
    destruct (upsert_ok w); [|discriminate H].
    injection H as <-. exists b. by rewrite Ht, Hi.
  - destruct (upsert_ok w); [|discriminate H].
    injection H as <-. exists b. by rewrite Ht.
Qed.

(** What GET /api/settings answers after a save that succeeded: a field
    that was sent truthy is answered as sent, a field that was sent falsy
    (a level of 0, an empty name) is answered as its default, a toggle
    that was sent and is not [null] is answered as sent ([false] too),
    and the language is the one sent, ["en"] for a falsy one. *)
Theorem settings_read_after_save (w w' : world) (st st' : store) (u : user)
    (body : value) (b : Settings.settings) :
  Settings.put toISOString w st u body = (Json (), st') →
  Settings.destructure body = Some b →
  select_ok w' = true →
  ∃ s, Settings.get w' st' u = Json s
    ∧ (∀ field col, (field, col) ∈ Fields.defaulted →
         (truthy (field b) = true → field s = field b)
         ∧ (field b ≠ VUndefined → truthy (field b) = false →
            field s = field (Settings.defaultSettings u)))
    ∧ (∀ field col, (field, col) ∈ Fields.toggles →
         field b ≠ VUndefined → field b ≠ VNull → field s = field b)
    ∧ Settings.language s = or_else (Settings.language b) (VStr "en").
Proof.
  intros Hput Hb Hsel.
  apply put_Json in Hput as (b' & Hb' & Hacc & ->).
  assert (b' = b) as -> by congruence.
  unfold Settings.get. rewrite Hsel. simpl. rewrite lookup_insert_eq.
  eexists. split; [done|]. split; [|split].
  - intros field col Hin. unfold Fields.defaulted in Hin.
    repeat (apply elem_of_cons in Hin as [[= -> ->]|Hin];
            [simpl; split;
             [intros Ht; rewrite (merge_col_defined _ _ (truthy_defined _ Ht));
              by apply or_else_truthy
             |intros Hd Hf; rewrite (merge_col_defined _ _ Hd);
              by apply or_else_falsy]|]).
    by apply elem_of_nil in Hin.
  - intros field col Hin Hd Hn. unfold Fields.toggles in Hin.
    repeat (apply elem_of_cons in Hin as [[= -> ->]|Hin];
            [simpl in *;
             match goal with Hx : ?x ≠ VUndefined |- _ => by destruct x end|]).
    by apply elem_of_nil in Hin.
  - simpl. rewrite merge_col_defined by (by apply or_else_defined).
    apply or_else_truthy, truthy_or_else. done.
Qed.

(** The stored language stays one of ["en"] and ["ja"]: if it is for
    every user, it still is after PUT /api/settings and after
    PUT /api/user/language, whatever they are sent. *)
Theorem stored_language_stays_valid (w : world) (st : store) (u : user)
    (body : value) :
  (∀ uid row, user_settings st !! uid = Some row →
     UserSettings.language row = VStr "en"
     ∨ UserSettings.language row = VStr "ja") →
  ∀ st', st' = (Settings.put toISOString w st u body).2
         ∨ st' = (Language.put toISOString w st u body).2 →
  ∀ uid row, user_settings st' !! uid = Some row →
     UserSettings.language row = VStr "en"
     ∨ UserSettings.language row = VStr "ja".
Proof.
  intros Hinv st' Hst' uid row Hrow.
  assert (Hnew : ∀ l r old,
            l = VStr "en" ∨ l = VStr "ja" →
            UserSettings.language r = l →
            user_settings
              (with_settings st
                 (<[id u := Db.merge_settings r old]> (user_settings st)))
              !! uid = Some row →
            UserSettings.language row = VStr "en"
            ∨ UserSettings.language row = VStr "ja").
  { intros l r old Hl Hr H. simpl in H.
    destruct (decide (id u = uid)) as [<-|Hne];
      [|rewrite lookup_insert_ne in H by done; by apply (Hinv uid)].
    rewrite lookup_insert_eq in H. injection H as <-. simpl. rewrite Hr.
    by destruct Hl as [-> | ->]; [left|right]. }
  destruct Hst' as [-> | ->].
  - unfold Settings.put in Hrow.
    destruct (Settings.destructure body) as [b|]; [|by apply (Hinv uid)].
    destruct (truthy (Settings.language b)) eqn:Ht; simpl in Hrow.
    + destruct (includes _ _) eqn:Hi; simpl in Hrow; [|by apply (Hinv uid)].
      destruct (upsert_ok w); [|by apply (Hinv uid)].
      eapply (Hnew (Settings.language b));
        [by apply includes_en_ja| |exact Hrow]; simpl; by apply or_else_truthy.
    + destruct (upsert_ok w); [|by apply (Hinv uid)].
      eapply (Hnew (VStr "en")); [by left| |exact Hrow];
        simpl; by apply or_else_falsy.
  - unfold Language.put in Hrow.
    destruct (Js.get "language" body) as [l|]; [|by apply (Hinv uid)].
    destruct (truthy l); simpl in Hrow; [|by apply (Hinv uid)].
    destruct (includes _ _) eqn:Hi; simpl in Hrow; [|by apply (Hinv uid)].
    destruct (upsert_ok w); [|by apply (Hinv uid)].
    eapply (Hnew l); [by apply includes_en_ja| |exact Hrow]; done.
Qed.

(** PUT /api/user/language refuses every language but ["en"] and ["ja"]
    (the empty string and a missing one too) with status 400 and writes
    nothing. *)
Theorem language_put_refuses_others (w : world) (st : store) (u : user)
    (body l : value) :
  Js.get "language" body = Some l →
  l ≠ VStr "en" →
  l ≠ VStr "ja" →
  Language.put toISOString w st u body = (Fail 400 Settings.invalid_language, st).
Proof.
  intros Hl Hen Hja. unfold Language.put. rewrite Hl.
  destruct (includes ["en"; "ja"] l) eqn:Hi.
  - apply includes_en_ja in Hi as [?|?]; congruence.
  - by rewrite orb_true_r.
Qed.

(** PUT /api/user/language, when it succeeds, was sent ["en"] or ["ja"],
    stores it, leaves every other setting of the caller as it was, and
    GET /api/user/language and GET /api/settings then answer with it. *)
Theorem language_saved_and_read (w w' : world) (st st' : store) (u : user)
    (body l : value) :
  Language.put toISOString w st u body = (Json l, st') →
  select_ok w' = true →
  (l = VStr "en" ∨ l = VStr "ja")
  ∧ Js.get "language" body = Some l
  ∧ (∃ r, user_settings st' !! id u = Some r
          ∧ UserSettings.language r = l
          ∧ ∀ field col, (field, col) ∈ (Fields.defaulted ++ Fields.toggles)%list →
              col r = from_option col VNull (user_settings st !! id u))
  ∧ Language.get w' st' u = Json l
  ∧ ∃ s, Settings.get w' st' u = Json s ∧ Settings.language s = l.
Proof.
  unfold Language.put. intros H Hsel.
  destruct (Js.get "language" body) as [l'|]; [|discriminate H].
  destruct (truthy l') eqn:Ht; simpl in H; [|discriminate H].
  destruct (includes _ _) eqn:Hi; simpl in H; [|discriminate H].
  destruct (upsert_ok w); [|discriminate H].
  injection H as -> <-.
  split; [by apply includes_en_ja|]. split; [done|]. split; [|split].
  - eexists. split; [apply lookup_insert_eq|].
    split; [simpl; apply merge_col_defined; by apply truthy_defined|].
    intros field col Hin. unfold Fields.defaulted, Fields.toggles in Hin.
    simpl in Hin.
    repeat (apply elem_of_cons in Hin as [[= -> ->]|Hin]; [reflexivity|]).
    by apply elem_of_nil in Hin.
  - unfold Language.get. rewrite Hsel. simpl. rewrite lookup_insert_eq. simpl.
    rewrite (merge_col_defined _ _ (truthy_defined _ Ht)).
    f_equal. by apply or_else_truthy.
  - unfold Settings.get. rewrite Hsel. simpl. rewrite lookup_insert_eq.
    eexists. split; [done|]. simpl.
    rewrite (merge_col_defined _ _ (truthy_defined _ Ht)).
    by apply or_else_truthy.
Qed.

End SaveAndRead.

Lemma settings_resolved_complete_witness :
  truthy (Settings.maxLevel
            (Settings.resolve Sample.u (Some Sample.settings_falsy))) = true
  ∧ Settings.showDrawing (Settings.resolve Sample.u (Some Sample.settings_falsy))
    ≠ VNull.
Proof.
  destruct (settings_resolved_complete Sample.u (Some Sample.settings_falsy))
    as (Hdef & _ & Htog).
  split.
  - apply (Hdef Settings.maxLevel UserSettings.max_level). repeat constructor.
  - apply (Htog Settings.showDrawing UserSettings.show_drawing);
      [repeat constructor|].
    intros row [= <-]. discriminate.
Defined.

(** A level of 0 is read back as 10, the toggle [false] as [false], the
    JLPT level as sent, and the language as ["en"]. *)
Lemma settings_read_after_save_witness :
  ∃ st' s,
    Settings.put Sample.toISOString Sample.w (Sample.with_row Sample.settings_ja)
      Sample.u Sample.body_mixed
    = (Json (), st')
    ∧ Settings.get Sample.w st' Sample.u = Json s
    ∧ Settings.maxLevel s = VNum 10
    ∧ Settings.jlptLevel s = VStr "N3"
    ∧ Settings.showProgress s = VBool false
    ∧ Settings.language s = VStr "en".
Proof.
  destruct (settings_read_after_save Sample.toISOString Sample.w Sample.w
              (Sample.with_row Sample.settings_ja) _ Sample.u Sample.body_mixed _
              eq_refl eq_refl eq_refl)
    as (s & Hget & Hdef & Htog & Hlang).
  eexists _, s. split; [reflexivity|]. split; [exact Hget|].
  split; [|split; [|split]].
  - apply (Hdef Settings.maxLevel UserSettings.max_level);
      [repeat constructor|discriminate|reflexivity].
  - apply (Hdef Settings.jlptLevel UserSettings.jlpt_level);
      [repeat constructor|reflexivity].
  - apply (Htog Settings.showProgress UserSettings.show_progress);
      [repeat constructor|discriminate|discriminate].
  - exact Hlang.
Defined.

Lemma stored_language_stays_valid_witness :
  ∃ row,
    user_settings
      (Settings.put Sample.toISOString Sample.w
         (Sample.with_row Sample.settings_ja) Sample.u
         Sample.body_empty_language).2 !! "u1" = Some row
    ∧ (UserSettings.language row = VStr "en"
       ∨ UserSettings.language row = VStr "ja").
Proof.
  eexists. split; [reflexivity|].
  eapply (stored_language_stays_valid Sample.toISOString Sample.w
            (Sample.with_row Sample.settings_ja) Sample.u
            Sample.body_empty_language) with (uid := "u1");
    [|by left|reflexivity].
  intros uid row Hrow. unfold Sample.with_row in Hrow. simpl in Hrow.
  apply lookup_singleton_Some in Hrow as [_ <-]. by right.
Defined.

(** The empty language, which PUT /api/settings lets through, and ["fr"]
    are refused. *)
Lemma language_put_refuses_others_witness :
  Language.put Sample.toISOString Sample.w (Sample.with_row Sample.settings_ja)
    Sample.u Sample.body_empty_language
  = (Fail 400 Settings.invalid_language, Sample.with_row Sample.settings_ja)
  ∧ Language.put Sample.toISOString Sample.w (Sample.with_row Sample.settings_ja)
      Sample.u Sample.body_fr
    = (Fail 400 Settings.invalid_language, Sample.with_row Sample.settings_ja).
Proof.
  split.
  - apply (language_put_refuses_others Sample.toISOString Sample.w _ Sample.u
             Sample.body_empty_language (VStr "")); [reflexivity| |]; discriminate.
  - apply (language_put_refuses_others Sample.toISOString Sample.w _ Sample.u
             Sample.body_fr (VStr "fr")); [reflexivity| |]; discriminate.
Defined.

Lemma language_saved_and_read_witness :
  ∃ st' r,
    Language.put Sample.toISOString Sample.w (Sample.with_row Sample.settings_falsy)
      Sample.u Sample.body_ja
    = (Json (VStr "ja"), st')
    ∧ user_settings st' !! "u1" = Some r
    ∧ UserSettings.max_level r = VNum 0
    ∧ Language.get Sample.w st' Sample.u = Json (VStr "ja").
Proof.
  destruct (language_saved_and_read Sample.toISOString Sample.w Sample.w
              (Sample.with_row Sample.settings_falsy) _ Sample.u Sample.body_ja
              (VStr "ja") eq_refl eq_refl)
    as (_ & _ & (r & Hr & _ & Hcols) & Hget & _).
  eexists _, r. split; [reflexivity|]. split; [exact Hr|]. split; [|exact Hget].
  rewrite (Hcols Settings.maxLevel UserSettings.max_level); [reflexivity|].
  repeat constructor.
Defined.

Lemma errors_write_nothing_witness :
  (Progress.bulk_update Sample.parseInt Sample.toISOString Sample.item_key
     Sample.w (Sample.streaks 3 19727) Sample.u Sample.body_batch_malformed).2
  = Sample.streaks 3 19727.
Proof.
  apply (proj2 (proj2 (proj2 (proj2
           (errors_write_nothing Sample.parseInt Sample.toISOString
              Sample.item_key Sample.w (Sample.streaks 3 19727) _ Sample.u
              Sample.body_batch_malformed 500 "Failed to update progress"))))).
  reflexivity.
Defined.

(** ** Accounts *)

Lemma dots_spec s :
  Auth.dots s = true ↔ ∀ c, c ∈ list_ascii_of_string s → Auth.dot c = true.
Proof.
  induction s as [|c s IH]; simpl.
  - split; [intros _ c Hc; by apply elem_of_nil in Hc|done].
  - rewrite andb_true_iff, IH. split.
    + intros [Hc Hs] c' [->|Hin]%elem_of_cons; [done|by apply Hs].
    + intros H. split; [apply H; left|intros c' Hin; apply H; by right].
Qed.

Lemma ahead_found class s :
  Auth.ahead class s = true → ∃ c, c ∈ list_ascii_of_string s ∧ class c = true.
Proof.
  induction s as [|c s IH]; simpl; [discriminate|].
  intros [Hc|[_ Hs]%andb_true_iff]%orb_true_iff.
  - exists c. split; [left|done].
  - destruct (IH Hs) as (c' & Hin & Hc'). exists c'. split; [by right|done].
Qed.

Lemma ahead_dots class s c :
  Auth.dots s = true → c ∈ list_ascii_of_string s → class c = true →
  Auth.ahead class s = true.
Proof.
  induction s as [|c0 s IH]; simpl; [by intros _ Hc%elem_of_nil|].
  intros [Hd Hs]%andb_true_iff [->|Hin]%elem_of_cons Hc.
  - by rewrite Hc.
  - rewrite Hd, (IH Hs Hin Hc). apply orb_true_r.
Qed.

(** The password policy, as the regular expression has it: a string
    passes exactly when it has 8 to 30 characters, none of them a line
    feed or a carriage return, and among them a lower case letter, an
    upper case letter, a digit and one of the twenty symbols. *)
Theorem passwordRegex_policy (s : string) :
  Auth.passwordRegex_test s = true
  ↔ (8 ≤ String.length s ≤ 30)%nat
    ∧ (∀ c, c ∈ list_ascii_of_string s → Auth.dot c = true)
    ∧ (∃ c, c ∈ list_ascii_of_string s ∧ Auth.lower c = true)
    ∧ (∃ c, c ∈ list_ascii_of_string s ∧ Auth.upper c = true)
    ∧ (∃ c, c ∈ list_ascii_of_string s ∧ Auth.digit c = true)
    ∧ (∃ c, c ∈ list_ascii_of_string s ∧ Auth.symbol c = true).
Proof.
  unfold Auth.passwordRegex_test, Auth.between.
  rewrite !andb_true_iff, !Nat.leb_le, dots_spec. split.
  - intros ((((Hl & Hu) & Hd) & Hs) & (Hdots & Hlo) & Hhi).
    repeat split; try done; by apply ahead_found.
  - intros ([Hlo Hhi] & Hdots & (cl & Hl & ?) & (cu & Hu & ?) & (cd & Hd & ?)
            & (cs & Hs & ?)).
    apply dots_spec in Hdots as Hdots'.
    split; [|by repeat split].
    split; [|by apply (ahead_dots _ s cs)].
    split; [|by apply (ahead_dots _ s cd)].
    split; [by apply (ahead_dots _ s cl)|by apply (ahead_dots _ s cu)].
Qed.

Lemma passwordRegex_policy_witness :
  Auth.passwordRegex_test "Abcdef1!" = true
  ∧ Auth.passwordRegex_test "Abcdef1_" = false.
Proof.
  split.
  - apply passwordRegex_policy. split; [simpl; lia|]. split.
    + intros c Hc. simpl in Hc.
      repeat (apply elem_of_cons in Hc as [->|Hc]; [reflexivity|]).
      by apply elem_of_nil in Hc.
    + split; [exists "b"%char; split; [repeat constructor|reflexivity]|].
      split; [exists "A"%char; split; [repeat constructor|reflexivity]|].
      split; [exists "1"%char; split; [repeat constructor|reflexivity]|].
      exists "!"%char. split; [repeat constructor|reflexivity].
  - reflexivity.
Defined.

Section Register.

Variable toNumber : value → value.
Variable toString : value → string.

Lemma length_check (n : nat) :
  Auth.less toNumber (VNum (inject_Z (Z.of_nat n))) 3
  || Auth.greater toNumber (VNum (inject_Z (Z.of_nat n))) 50 = false
  ↔ (3 ≤ n ≤ 50)%nat.
Proof.
  unfold Auth.less, Auth.greater. simpl. unfold Qle_bool. simpl.
  rewrite orb_false_iff, !negb_false_iff, !Z.leb_le. lia.
Qed.

(** A registration that succeeds had a username, a password and an
    email; a username that is a string has 3 to 50 characters and a
    password that is a string passes the password policy; no profile
    with the username was found and the identity service made the user.
    The account is answered as not anonymous. *)
Theorem register_success_valid (existingProfile checkError : value)
    (su : Auth.signUp) (body : value) (r : Auth.registered) :
  Auth.register toNumber toString existingProfile checkError su body = Json r →
  ∃ username password email uid,
    Js.get "username" body = Some username
    ∧ Js.get "password" body = Some password
    ∧ Js.get "email" body = Some email
    ∧ truthy username = true ∧ truthy password = true ∧ truthy email = true
    ∧ (∀ s, username = VStr s → (3 ≤ String.length s ≤ 50)%nat)
    ∧ (∀ p, password = VStr p → Auth.passwordRegex_test p = true)
    ∧ (truthy existingProfile = false ∨ truthy checkError = true)
    ∧ Auth.signUpError su = None
    ∧ Auth.signUp_user su = Some uid
    ∧ Auth.account_of r
      = {| Auth.account_id := uid; Auth.account_username := username;
           Auth.account_email := email; Auth.isAnonymous := VBool false |}.
Proof.
  unfold Auth.register. intros H.
  destruct (Js.get "username" body) as [username|]; [|discriminate H].
  destruct (Js.get "password" body) as [password|]; [|discriminate H].
  destruct (Js.get "email" body) as [email|]; [|discriminate H].
  simpl in H.
  destruct (truthy username) eqn:Hu; [|discriminate H].
  destruct (truthy password) eqn:Hp; [|discriminate H].
  destruct (truthy email) eqn:He; [|discriminate H].
  simpl in H.
  destruct (Auth.length_of username) as [len|] eqn:Hlen; [|discriminate H].
  destruct (_ || _) eqn:Hrange; [discriminate H|].
  destruct (Auth.test toString password) eqn:Htest; [|discriminate H].
  simpl in H.
  destruct (truthy existingProfile && negb (truthy checkError)) eqn:Hex;
    [discriminate H|].
  destruct (Auth.signUpError su) eqn:Herr; [discriminate H|].
  destruct (Auth.signUp_user su) as [uid|] eqn:Huser; [|discriminate H].
  exists username, password, email, uid.
  do 6 (split; [done|]).
  split.
  { intros s ->. simpl in Hlen. injection Hlen as <-. by apply length_check. }
  split; [by intros p ->|].
  split.
  { apply andb_false_iff in Hex as [?|?%negb_false_iff]; [by left|by right]. }
  do 2 (split; [done|]).
  destruct (negb (truthy (Auth.session su))); by injection H as <-.
Qed.

(** A registration succeeds when the username is a string of 3 to 50
    characters, or a number other than 0, which the length check lets
    through; the password is a string that passes the policy and the
    email is truthy; no profile with the username is found and the
    identity service makes the user. *)
Theorem register_accepts (existingProfile checkError : value)
    (su : Auth.signUp) (body username email : value) (p uid : string) :
  Js.get "username" body = Some username →
  Js.get "password" body = Some (VStr p) →
  Js.get "email" body = Some email →
  (∃ s, username = VStr s ∧ (3 ≤ String.length s ≤ 50)%nat)
  ∨ (∃ q, username = VNum q ∧ truthy (VNum q) = true) →
  Auth.passwordRegex_test p = true →
  truthy email = true →
  truthy existingProfile = false →
  Auth.signUpError su = None →
  Auth.signUp_user su = Some uid →
  ∃ r, Auth.register toNumber toString existingProfile checkError su body
       = Json r
    ∧ Auth.account_of r
      = {| Auth.account_id := uid; Auth.account_username := username;
           Auth.account_email := email; Auth.isAnonymous := VBool false |}.
Proof.
  intros Hu Hp He Hname Hpass Hemail Hex Herr Huser.
  unfold Auth.register. rewrite Hu, Hp, He. simpl.
  assert (Htp : truthy (VStr p) = true).
  { destruct p; [discriminate Hpass|done]. }
  assert (Hlen : truthy username = true
                 ∧ ∃ len, Auth.length_of username = Some len
                          ∧ Auth.less toNumber len 3
                            || Auth.greater toNumber len 50 = false).
  { destruct Hname as [(s & -> & Hs)|(q & -> & Hq)].
    - split; [destruct s; [simpl in Hs; lia|done]|].
      eexists. split; [done|]. by apply length_check.
    - split; [done|]. by eexists. }
  destruct Hlen as (Htu & len & -> & ->).
  simpl in Htp. rewrite Htu, Htp, Hemail. simpl.
  unfold Auth.test. rewrite Hpass, Hex. simpl.
  rewrite Herr, Huser.
  destruct (negb (truthy (Auth.session su))); by eexists.
Qed.

Lemma register_not_anonymous existingProfile checkError su body r :
  Auth.register toNumber toString existingProfile checkError su body = Json r →
  Auth.isAnonymous (Auth.account_of r) = VBool false.
Proof.
  unfold Auth.register. intros H.
  destruct (_ ≫= _) as [[[username password] email]|]; [|discriminate H].
  destruct (_ || _); [discriminate H|].
  destruct (Auth.length_of username); [|discriminate H].
  destruct (_ || _); [discriminate H|].
  destruct (negb (Auth.test toString password)); [discriminate H|].
  destruct (_ && _); [discriminate H|].
  destruct (Auth.signUpError su); [discriminate H|].
  destruct (Auth.signUp_user su); [|discriminate H].
  destruct (negb (truthy (Auth.session su))); by injection H as <-.
Qed.

(** GET /api/auth/verify tells an anonymous account by its name alone:
    an account that the registration made with a username that starts
    with ["guest_"], and answered as not anonymous, is answered as
    anonymous by it. *)
Theorem registered_guest_name_is_anonymous (existingProfile checkError : value)
    (su : Auth.signUp) (body : value) (r : Auth.registered) (s : string)
    (u : user) (email : value) :
  Auth.register toNumber toString existingProfile checkError su body = Json r →
  Js.get "username" body = Some (VStr s) →
  String.prefix "guest_" s = true →
  username u = VStr s →
  Auth.isAnonymous (Auth.account_of r) = VBool false
  ∧ Auth.verify u email
    = Json {| Auth.account_id := id u; Auth.account_username := VStr s;
              Auth.account_email := email; Auth.isAnonymous := VBool true |}.
Proof.
  intros Hreg Hname Hguest Hu.
  split; [by apply (register_not_anonymous _ _ _ _ _ Hreg)|].
  unfold Auth.verify. by rewrite Hu, Hguest.
Qed.

End Register.

(** An account registered as ["guest_bob"]. *)
Lemma register_success_valid_witness :
  ∃ r, Auth.register Sample.toNumber Sample.toString VNull VNull Sample.signed_up
         Sample.body_register
       = Json r
    ∧ Auth.account_username (Auth.account_of r) = VStr "guest_bob"
    ∧ Auth.isAnonymous (Auth.account_of r) = VBool false.
Proof.
  eexists. split; [reflexivity|].
  destruct (register_success_valid Sample.toNumber Sample.toString VNull VNull
              Sample.signed_up Sample.body_register _ eq_refl)
    as (username & ? & ? & ? & Hu & _ & _ & _ & _ & _ & _ & _ & _ & _ & _ & Hr).
  rewrite Hr. injection Hu as <-. split; reflexivity.
Defined.

(** The username 12345 is registered. *)
Lemma register_accepts_witness :
  ∃ r, Auth.register Sample.toNumber Sample.toString VNull VNull Sample.signed_up
         Sample.body_register_number
       = Json r
    ∧ Auth.account_username (Auth.account_of r) = VNum 12345.
Proof.
  destruct (register_accepts Sample.toNumber Sample.toString VNull VNull
              Sample.signed_up Sample.body_register_number (VNum 12345)
              (VStr "bob@example.org") "Abcdef1!" "u3")
    as (r & Hr & Ha); try reflexivity.
  { right. by exists 12345%Q. }
  exists r. split; [exact Hr|]. by rewrite Ha.
Defined.

Lemma registered_guest_name_is_anonymous_witness :
  Auth.verify {| id := "u3"; username := VStr "guest_bob" |} (VStr "bob@example.org")
  = Json {| Auth.account_id := "u3"; Auth.account_username := VStr "guest_bob";
            Auth.account_email := VStr "bob@example.org";
            Auth.isAnonymous := VBool true |}.
Proof.
  apply (registered_guest_name_is_anonymous Sample.toNumber Sample.toString
           VNull VNull Sample.signed_up Sample.body_register
           (Auth.Registered
              {| Auth.account_id := "u3"; Auth.account_username := VStr "guest_bob";
                 Auth.account_email := VStr "bob@example.org";
                 Auth.isAnonymous := VBool false |}
              (Auth.session Sample.signed_up))
           "guest_bob" {| id := "u3"; username := VStr "guest_bob" |});
    reflexivity.
Defined.

(** *** The token of a request *)

Lemma remove_first_eq pattern s :
  Auth.remove_first pattern s
  = if String.prefix pattern s
    then String.substring (String.length pattern)
           (String.length s - String.length pattern) s
    else match s with
         | EmptyString => EmptyString
         | String c s' => String c (Auth.remove_first pattern s')
         end.
Proof. by destruct s. Qed.

Lemma prefix_append p t : String.prefix p (String.append p t) = true.
Proof.
  induction p as [|c p IH]; simpl; [by destruct t|].
  by destruct (ascii_dec c c).
Qed.

Lemma prefix_split p : ∀ s,
  String.prefix p s = true → ∃ t, s = String.append p t.
Proof.
  induction p as [|c p IH]; intros s H; [by exists s|].
  destruct s as [|c' s]; [discriminate H|]. simpl in H.
  destruct (ascii_dec c c') as [<-|]; [|discriminate H].
  destruct (IH s H) as [t ->]. by exists t.
Qed.

Lemma substring_all t : String.substring 0 (String.length t) t = t.
Proof. induction t as [|c t IH]; simpl; [done|by rewrite IH]. Qed.

Lemma substring_append p t :
  String.substring (String.length p)
    (String.length (String.append p t) - String.length p) (String.append p t)
  = t.
Proof.
  induction p as [|c p IH]; simpl.
  - rewrite Nat.sub_0_r. apply substring_all.
  - apply IH.
Qed.

Lemma remove_first_append p t : Auth.remove_first p (String.append p t) = t.
Proof. by rewrite remove_first_eq, prefix_append, substring_append. Qed.

Lemma remove_first_empty s :
  Auth.remove_first "Bearer " s = "" ↔ s = "" ∨ s = "Bearer ".
Proof.
  split.
  - rewrite remove_first_eq.
    destruct (String.prefix "Bearer " s) eqn:Hp.
    + apply prefix_split in Hp as [t ->]. rewrite substring_append.
      intros ->. by right.
    + destruct s; [by left|discriminate].
  - by intros [-> | ->].
Qed.

Lemma remove_first_absent s :
  (∀ c, c ∈ list_ascii_of_string s → c ≠ " "%char) →
  Auth.remove_first "Bearer " s = s.
Proof.
  induction s as [|c s IH]; intros Hs; [done|].
  rewrite remove_first_eq.
  destruct (String.prefix "Bearer " (String c s)) eqn:Hp.
  - apply prefix_split in Hp as [t Ht]. exfalso.
    apply (Hs " "%char); [|done]. rewrite Ht. simpl. repeat constructor.
  - f_equal. apply IH. intros c' Hc'. apply Hs. simpl. by right.
Qed.

Section Middleware.

Variable getUser : string → option (string * value).
Variable getProfile : string → option (gmap string value).

(** The middleware answers "Access token required" exactly when there is
    no [authorization] header or the header is empty or is ["Bearer "];
    a header ["Bearer "] followed by a token, and a header that is the
    token alone (without a space in it), are both treated as that
    token. *)
Theorem authenticate_token (authHeader : option string) (t : string) :
  (Auth.authenticateUser getUser getProfile authHeader
   = Auth.Answered (Fail 401 "Access token required")
   ↔ authHeader = None ∨ authHeader = Some "" ∨ authHeader = Some "Bearer ")
  ∧ (t ≠ "" →
     Auth.authenticateUser getUser getProfile (Some (String.append "Bearer " t))
     = Auth.withToken getUser getProfile t)
  ∧ (t ≠ "" → (∀ c, c ∈ list_ascii_of_string t → c ≠ " "%char) →
     Auth.authenticateUser getUser getProfile (Some t)
     = Auth.withToken getUser getProfile t).
Proof.
  split; [|split].
  - unfold Auth.authenticateUser. destruct authHeader as [h|]; simpl.
    + destruct (String.eqb_spec (Auth.remove_first "Bearer " h) "") as [He|Hne].
      * apply remove_first_empty in He as [-> | ->]; split; auto.
      * split.
        -- unfold Auth.withToken.
           destruct (getUser _) as [[uid email]|]; [|discriminate].
           destruct (getProfile uid); discriminate.
        -- intros [H|[[= ->]|[= ->]]]; [discriminate H| |]; by destruct Hne.
    + split; auto.
  - intros Ht. unfold Auth.authenticateUser.
    change (Auth.remove_first "Bearer " <$> Some (String.append "Bearer " t))
      with (Some (Auth.remove_first "Bearer " (String.append "Bearer " t))).
    rewrite remove_first_append.
    by destruct (String.eqb_spec t "").
  - intros Ht Hs. unfold Auth.authenticateUser. simpl.
    rewrite (remove_first_absent t Hs).
    by destruct (String.eqb_spec t "").
Qed.

(** The middleware lets a request through only with a token that the
    identity service knows and a profile for its user; [req.user] is
    that profile, with the id and the email of the identity where the
    profile has none, and [req.token] is the token. *)
Theorem authenticate_next (authHeader : option string)
    (req_user : gmap string value) (token : string) :
  Auth.authenticateUser getUser getProfile authHeader = Auth.Next req_user token →
  ∃ h uid email profile,
    authHeader = Some h
    ∧ token = Auth.remove_first "Bearer " h
    ∧ token ≠ ""
    ∧ getUser token = Some (uid, email)
    ∧ getProfile uid = Some profile
    ∧ req_user !! "id" = Some (default (VStr uid) (profile !! "id"))
    ∧ req_user !! "email" = Some (default email (profile !! "email"))
    ∧ ∀ name v, profile !! name = Some v → req_user !! name = Some v.
Proof.
  unfold Auth.authenticateUser. destruct authHeader as [h|]; [|discriminate].
  simpl. destruct (String.eqb_spec (Auth.remove_first "Bearer " h) "") as [|Hne];
    [discriminate|].
  unfold Auth.withToken.
  destruct (getUser _) as [[uid email]|] eqn:Huser; [|discriminate].
  destruct (getProfile uid) as [profile|] eqn:Hprofile; [|discriminate].
  intros [= <- <-]. exists h, uid, email, profile.
  do 5 (split; [done|]). split; [|split].
  - rewrite <- (assoc_L (∪)). rewrite lookup_union.
    destruct (profile !! "id") as [v|] eqn:Hv; simpl.
    + by rewrite union_Some_l.
    + rewrite (left_id_L None _). by rewrite lookup_union_l', lookup_singleton_eq.
  - rewrite lookup_union.
    destruct (profile !! "email") as [v|] eqn:Hv; simpl.
    + rewrite lookup_union, Hv. simpl.
      by rewrite union_Some_l.
    + rewrite lookup_union, Hv, lookup_singleton_ne by done.
      simpl. by rewrite lookup_singleton_eq.
  - intros name v Hv. rewrite <- (assoc_L (∪)).
    by apply lookup_union_Some_l.
Qed.

End Middleware.

Lemma authenticate_token_witness :
  Auth.authenticateUser Sample.getUser Sample.getProfile (Some "Bearer ")
  = Auth.Answered (Fail 401 "Access token required")
  ∧ Auth.authenticateUser Sample.getUser Sample.getProfile (Some "Bearer t0k3n")
    = Auth.authenticateUser Sample.getUser Sample.getProfile (Some "t0k3n").
Proof.
  destruct (authenticate_token Sample.getUser Sample.getProfile
              (Some "Bearer ") "t0k3n") as (Hreq & Hbearer & Hbare).
  split.
  - apply Hreq. by right; right.
  - change "Bearer t0k3n" with (String.append "Bearer " "t0k3n").
    rewrite Hbearer by discriminate. symmetry. apply Hbare; [discriminate|].
    intros c Hc. simpl in Hc.
    repeat (apply elem_of_cons in Hc as [->|Hc]; [discriminate|]).
    by apply elem_of_nil in Hc.
Defined.

Lemma authenticate_next_witness :
  ∃ req_user,
    Auth.authenticateUser Sample.getUser Sample.getProfile (Some "Bearer t0k3n")
    = Auth.Next req_user "t0k3n"
    ∧ req_user !! "id" = Some (VStr "u3")
    ∧ req_user !! "email" = Some (VStr "bob@example.org")
    ∧ req_user !! "username" = Some (VStr "guest_bob").
Proof.
  eexists. split; [reflexivity|].
  destruct (authenticate_next Sample.getUser Sample.getProfile
              (Some "Bearer t0k3n") _ "t0k3n" eq_refl)
    as (h & uid & email & profile & [= <-] & _ & _ & [= <- <-] & [= <-]
        & Hid & Hemail & Hprofile).
  split; [exact Hid|]. split; [exact Hemail|].
  apply Hprofile. reflexivity.
Defined.

(** ** The log *)

Section Log.

Variable toISOString : Z → string.

(** The body of a request is logged when it has a property, and what is
    logged of it never shows a truthy [password]: the property is
    replaced by ["[REDACTED]"].  Every other property is logged as it
    is. *)
Theorem logged_body_redacted (w : world) (method url : string)
    (contentType : option string) (body : value) :
  (truthy body = true → Logging.own_properties body ≠ ∅ →
   ∃ d, Logging.Data (VObj d)
        ∈ Logging.logRequest toISOString w method url contentType body)
  ∧ ∀ d, Logging.Data (VObj d)
         ∈ Logging.logRequest toISOString w method url contentType body →
      (∀ v, d !! "password" = Some v → truthy v = true → v = VStr "[REDACTED]")
      ∧ ∀ name, name ≠ "password" →
          d !! name = Logging.own_properties body !! name.
Proof.
  assert (Hsan : ∀ d, d = Logging.sanitizedBody body →
            (∀ v, d !! "password" = Some v → truthy v = true →
                  v = VStr "[REDACTED]")
            ∧ ∀ name, name ≠ "password" →
                d !! name = Logging.own_properties body !! name).
  { intros d ->. unfold Logging.sanitizedBody.
    destruct (truthy (default VUndefined _)) eqn:Hp.
    - split.
      + intros v Hv _. rewrite lookup_insert_eq in Hv. by injection Hv as <-.
      + intros name Hne. by rewrite lookup_insert_ne.
    - split; [|done]. intros v Hv Ht. rewrite Hv in Hp. simpl in Hp. congruence. }
  unfold Logging.logRequest, Logging.log. simpl. split.
  - intros Hb Hprops. exists (Logging.sanitizedBody body).
    rewrite Hb. simpl.
    destruct (Nat.eqb_spec (size (Logging.own_properties body)) 0) as [He|_].
    { by apply map_size_empty_iff in He. }
    simpl. apply elem_of_cons. right. apply elem_of_app. right.
    apply elem_of_cons. right. apply elem_of_cons. by left.
  - intros d Hin. apply Hsan.
    apply elem_of_cons in Hin as [Hin|Hin]; [discriminate Hin|].
    apply elem_of_app in Hin as [Hin|Hin].
    + destruct contentType as [ct|]; [|by apply elem_of_nil in Hin].
      destruct (String.eqb ct ""); [by apply elem_of_nil in Hin|].
      simpl in Hin. destruct (negb (String.eqb ct "")); simpl in Hin;
        repeat (apply elem_of_cons in Hin as [Hin|Hin]; [discriminate Hin|]);
        by apply elem_of_nil in Hin.
    + destruct (truthy body && _); [|by apply elem_of_nil in Hin].
      repeat (apply elem_of_cons in Hin as [Hin|Hin];
              [by (discriminate Hin || injection Hin as ->)|]).
      by apply elem_of_nil in Hin.
Qed.

End Log.

(** The password of a registration is not in the log, its username
    is. *)
Lemma logged_body_redacted_witness :
  ∃ d, Logging.Data (VObj d)
       ∈ Logging.logRequest Sample.toISOString Sample.w "POST" "/api/auth/register"
           (Some "application/json") Sample.body_register
    ∧ d !! "password" = Some (VStr "[REDACTED]")
    ∧ d !! "username" = Some (VStr "guest_bob").
Proof.
  exists (Logging.sanitizedBody Sample.body_register).
  assert (Hd : Logging.Data (VObj (Logging.sanitizedBody Sample.body_register))
               ∈ Logging.logRequest Sample.toISOString Sample.w "POST"
                   "/api/auth/register" (Some "application/json")
                   Sample.body_register).
  { unfold Logging.logRequest, Logging.log. simpl. repeat constructor. }
  split; [exact Hd|]. split; [reflexivity|].
  rewrite (proj2 (proj2 (logged_body_redacted Sample.toISOString Sample.w "POST"
                           "/api/auth/register" (Some "application/json")
                           Sample.body_register) _ Hd))
    by discriminate.
  reflexivity.
Defined.

(** ** The custom words *)

Global Instance older_total : Total CustomWords.older.
Proof. intros a b. unfold CustomWords.older. lia. Qed.

Lemma of_kanji_spec uid k r :
  CustomWords.of_kanji uid k r = true
  ↔ UserCustomWords.user_id r = uid ∧ UserCustomWords.kanji_id r = k.
Proof.
  unfold CustomWords.of_kanji.
  by rewrite andb_true_iff, String.eqb_eq, Z.eqb_eq.
Qed.

Lemma is_word_spec i uid r :
  CustomWords.is_word i uid r = true
  ↔ UserCustomWords.id r = i ∧ UserCustomWords.user_id r = uid.
Proof.
  unfold CustomWords.is_word.
  by rewrite andb_true_iff, String.eqb_eq, Z.eqb_eq.
Qed.

Section Words.

Variable parseInt : value → value.
Variable item_key : value → option Z.
Variable word_key : string → option Z.

Local Arguments Nat.leb : simpl never.

Lemma add_Json new_id w t u body data t' :
  CustomWords.add parseInt item_key new_id w t u body = (Json data, t') →
  ∃ kanjiId counted,
    Js.get "kanjiId" body = Some kanjiId
    ∧ item_key kanjiId = Some counted
    ∧ (length (List.filter (CustomWords.of_kanji (id u) counted) t) < 3)%nat
    ∧ item_key (parseInt kanjiId) = Some (UserCustomWords.kanji_id data)
    ∧ UserCustomWords.user_id data = id u
    ∧ UserCustomWords.id data = new_id
    ∧ UserCustomWords.created_at data = now w
    ∧ t' = (t ++ [data])%list.
Proof.
  unfold CustomWords.add. intros H.
  destruct (Js.get "kanjiId" body) as [kanjiId|]; [|discriminate H].
  destruct (Js.get "word" body); [|discriminate H].
  destruct (Js.get "reading" body); [|discriminate H].
  destruct (Js.get "meaning" body); [|discriminate H].
  destruct (Js.get "wordType" body); [|discriminate H].
  destruct (Js.get "jlptLevel" body); [|discriminate H].
  simpl in H.
  destruct (if select_ok w then item_key kanjiId else None) as [counted|] eqn:Hc;
    [|discriminate H].
  destruct (Nat.leb_spec 3
              (length (List.filter (CustomWords.of_kanji (id u) counted) t)))
    as [|Hlt]; [discriminate H|].
  destruct (if upsert_ok w then item_key (parseInt kanjiId) else None)
    as [k|] eqn:Hk; [|discriminate H].
  injection H as <- <-.
  exists kanjiId, counted. split; [done|].
  split; [by destruct (select_ok w)|]. split; [done|].
  split; [by destruct (upsert_ok w)|]. done.
Qed.

(** No user has more than three words for a kanji: if that holds before
    POST /api/custom-words, it holds after it, as long as the store
    reads the [kanjiId] of the request and its [parseInt] as the same
    kanji (the count is asked for the one, the word is stored under the
    other). *)
Theorem words_limit_kept (new_id : Z) (w : world) (t t' : list UserCustomWords.row)
    (u : user) (body : value) (r : response UserCustomWords.row) :
  (∀ uid k, (length (List.filter (CustomWords.of_kanji uid k) t) ≤ 3)%nat) →
  (∀ kanjiId, Js.get "kanjiId" body = Some kanjiId →
              item_key (parseInt kanjiId) = item_key kanjiId) →
  CustomWords.add parseInt item_key new_id w t u body = (r, t') →
  ∀ uid k, (length (List.filter (CustomWords.of_kanji uid k) t') ≤ 3)%nat.
Proof.
  intros Hinv Hsame Hadd uid k.
  destruct r as [data|code error].
  - apply add_Json in Hadd
      as (kanjiId & counted & Hget & Hc & Hlt & Hk & Hu & _ & _ & ->).
    rewrite (Hsame _ Hget), Hc in Hk. injection Hk as Hk.
    rewrite List.filter_app, length_app. simpl.
    destruct (CustomWords.of_kanji uid k data) eqn:Hd; simpl;
      [|specialize (Hinv uid k); lia].
    apply of_kanji_spec in Hd as [Hd1 Hd2].
    assert (uid = id u) as -> by congruence.
    assert (k = counted) as -> by congruence. lia.
  - assert (t' = t) as ->; [|apply Hinv].
    unfold CustomWords.add in Hadd.
    destruct (_ ≫= _) as [[[[[[? ?] ?] ?] ?] ?]|];
      [|by injection Hadd as _ <-].
    destruct (if select_ok w then _ else _); [|by injection Hadd as _ <-].
    destruct (3 <=? _)%nat; [by injection Hadd as _ <-|].
    destruct (if upsert_ok w then _ else _); [discriminate Hadd|].
    by injection Hadd as _ <-.
Qed.

(** DELETE /api/custom-words/:wordId removes the rows with that id that
    belong to the caller and no other row; it answers with success also
    when there is no such row, as for the word of another user, and then
    deletes nothing. *)
Theorem delete_own_word_only (w : world) (t t' : list UserCustomWords.row)
    (u : user) (wordId : string) :
  CustomWords.delete word_key w t u wordId = (Json (), t') →
  ∃ i, word_key wordId = Some i
    ∧ (∀ r, r ∈ t' ↔ r ∈ t ∧ ¬ (UserCustomWords.id r = i
                                 ∧ UserCustomWords.user_id r = id u))
    ∧ ((∀ r, r ∈ t → UserCustomWords.id r = i →
             UserCustomWords.user_id r ≠ id u) →
       t' = t).
Proof.
  unfold CustomWords.delete. intros H.
  destruct (if upsert_ok w then word_key wordId else None) as [i|] eqn:Hi;
    [|discriminate H].
  injection H as <-. exists i. split; [by destruct (upsert_ok w)|]. split.
  - intros r. rewrite list_elem_of_In, List.filter_In, <- list_elem_of_In.
    rewrite negb_true_iff, <- not_true_iff_false, is_word_spec. done.
  - intros Hnone. induction t as [|r t' IH]; [done|]. simpl.
    destruct (CustomWords.is_word i (id u) r) eqn:Hr; simpl.
    + apply is_word_spec in Hr as [Hr1 Hr2].
      by destruct (Hnone r (list_elem_of_here _ _) Hr1).
    + f_equal. apply IH. intros r' Hin. apply Hnone. by right.
Qed.

(** After POST /api/custom-words has added a word, GET for the kanji it
    is stored under answers with it; the words answered are those of the
    caller for that kanji, in the order of their creation, and at most
    three when no user had more than three before. *)
Theorem words_read_after_add (new_id : Z) (w w' : world)
    (t t' : list UserCustomWords.row) (u : user) (body : value)
    (data : UserCustomWords.row) (kanjiId : string) :
  CustomWords.add parseInt item_key new_id w t u body = (Json data, t') →
  item_key (parseInt (VStr kanjiId)) = Some (UserCustomWords.kanji_id data) →
  select_ok w' = true →
  ∃ l, CustomWords.get parseInt item_key w' t' u kanjiId = Json l
    ∧ data ∈ l
    ∧ (∀ r, r ∈ l ↔ r ∈ t' ∧ UserCustomWords.user_id r = id u
                    ∧ UserCustomWords.kanji_id r = UserCustomWords.kanji_id data)
    ∧ Sorted CustomWords.older l
    ∧ ((∀ kanjiId', Js.get "kanjiId" body = Some kanjiId' →
                    item_key (parseInt kanjiId') = item_key kanjiId') →
       (length l ≤ 3)%nat).
Proof.
  intros Hadd Hkey Hsel. unfold CustomWords.get. rewrite Hsel, Hkey.
  eexists. split; [done|].
  assert (Hmem : ∀ r,
            r ∈ merge_sort CustomWords.older
                  (List.filter (CustomWords.of_kanji (id u)
                                  (UserCustomWords.kanji_id data)) t')
            ↔ r ∈ t' ∧ UserCustomWords.user_id r = id u
              ∧ UserCustomWords.kanji_id r = UserCustomWords.kanji_id data).
  { intros r. rewrite merge_sort_Permutation.
    by rewrite list_elem_of_In, List.filter_In, <- list_elem_of_In, of_kanji_spec. }
  pose proof Hadd as Hinv.
  apply add_Json in Hinv
    as (kid & counted & Hget & Hc & Hlt & Hk & Hu & _ & _ & ->).
  split; [|split; [done|split; [apply Sorted_merge_sort, _|]]].
  - apply Hmem. split; [|done]. apply elem_of_app. right. by left.
  - intros Hsame.
    rewrite (Permutation_length (merge_sort_Permutation _ _)).
    rewrite (Hsame _ Hget), Hc in Hk. injection Hk as <-.
    rewrite List.filter_app, length_app. simpl.
    destruct (CustomWords.of_kanji _ _ data); simpl; lia.
Qed.

End Words.

(** A fourth word for the kanji 7 is refused; a third one is added. *)
Lemma words_limit_kept_witness :
  (length (CustomWords.add Sample.parseInt Sample.item_key 4 Sample.w
             Sample.words Sample.u Sample.body_word).2 = 4)%nat
  ∧ (length (List.filter (CustomWords.of_kanji "u1" 7)
               (CustomWords.add Sample.parseInt Sample.item_key 4 Sample.w
                  Sample.words Sample.u Sample.body_word).2) ≤ 3)%nat.
Proof.
  split; [reflexivity|].
  apply (words_limit_kept Sample.parseInt Sample.item_key 4 Sample.w Sample.words
           _ Sample.u Sample.body_word
           (CustomWords.add Sample.parseInt Sample.item_key 4 Sample.w
              Sample.words Sample.u Sample.body_word).1).
  - intros uid k. unfold Sample.words. simpl.
    repeat (destruct (CustomWords.of_kanji uid k _); simpl); lia.
  - intros kanjiId [= <-]. reflexivity.
  - reflexivity.
Defined.

(** The caller deletes the word 1, which is theirs; asking for the word
    2, which is another user's, deletes nothing. *)
Lemma delete_own_word_only_witness :
  CustomWords.delete Sample.word_key Sample.w Sample.words Sample.u "1"
  = (Json (), [Sample.a_word 2 "u2" 7 20; Sample.a_word 3 "u1" 7 10])
  ∧ CustomWords.delete Sample.word_key Sample.w Sample.words Sample.u "2"
    = (Json (), Sample.words).
Proof.
  split; [reflexivity|].
  destruct (delete_own_word_only Sample.word_key Sample.w Sample.words _ Sample.u
              "2" eq_refl) as (i & [= <-] & _ & Hsame).
  reflexivity.
Defined.

Lemma words_read_after_add_witness :
  ∃ data t' l,
    CustomWords.add Sample.parseInt Sample.item_key 4 Sample.w Sample.words
      Sample.u Sample.body_word
    = (Json data, t')
    ∧ CustomWords.get Sample.parseInt Sample.item_key Sample.w t' Sample.u "7"
      = Json l
    ∧ UserCustomWords.id <$> l = [3; 1; 4].
Proof.
  destruct (words_read_after_add Sample.parseInt Sample.item_key 4 Sample.w
              Sample.w Sample.words _ Sample.u Sample.body_word _ "7"
              eq_refl eq_refl eq_refl) as (l & Hl & _).
  eexists _, _, l. split; [reflexivity|]. split; [exact Hl|].
  injection Hl as <-. reflexivity.
Defined.
